(** * Order hooks (src/hooks/useOrders.ts)

    A shallow embedding of the three hooks of [useOrders.ts]:
    [useOrders] (list query), [useUpdateOrderStatus] and [useCreateOrder]
    (mutations), together with executable models of the three
    collaborators they call: the Supabase/PostgREST store, the
    TanStack query cache and the toast function. *)

From Stdlib Require Import QArith.
From stdpp Require Import base numbers strings pretty list gmap sorting infinite.

Set Warnings "-register-all".
Open Scope string_scope.
Open Scope list_scope.

(** ** Data model (the TypeScript interfaces) *)

(** A JS [number].  The hooks never compute with numbers, they only carry
    them from one record to another. *)
Definition number : Type := Q.

(** An ISO-8601 instant ([created_at], [updated_at],
    [new Date().toISOString()]), represented by the instant it denotes.
    The hooks never inspect a timestamp; only the store orders by it. *)
Definition timestamp : Type := Z.

(** [any], as far as it can be sent over the wire. *)
Inductive Json : Type :=
| JNull
| JBool (b : bool)
| JNum (n : number)
| JStr (s : string)
| JArr (xs : list Json)
| JObj (fields : list (string * Json)).

(** [Record<string, any>]; the literal [{}] is the empty list. *)
Definition JsRecord : Type := list (string * Json).

(** ['dine-in' | 'takeaway'] *)
Inductive OrderType : Type := dine_in | takeaway.

(** ['new' | 'preparing' | 'ready' | 'served' | 'cancelled'] *)
Inductive OrderStatus : Type := new | preparing | ready | served | cancelled.

Definition all_statuses : list OrderStatus :=
  [new; preparing; ready; served; cancelled].

Global Instance OrderStatus_eq_dec : EqDecision OrderStatus.
Proof. solve_decision. Defined.

(** [OrderItem.menu_items] *)
Module MenuItems.
Record t : Type := mk {
  name : string;
  description : string;
}.
End MenuItems.

(** [interface OrderItem] *)
Module OrderItem.
Record t : Type := mk {
  id : string;
  order_id : string;
  menu_item_id : string;
  quantity : number;
  price : number;
  selected_options : option JsRecord;
  selected_add_ons : option JsRecord;
  menu_items : option MenuItems.t;
}.
End OrderItem.

(** [interface Order] *)
Module Order.
Record t : Type := mk {
  id : string;
  order_number : string;
  customer_name : string;
  customer_email : string;
  customer_phone : option string;
  order_type : OrderType;
  status : OrderStatus;
  total_amount : number;
  notes : option string;
  created_at : timestamp;
  updated_at : timestamp;
  order_items : option (list OrderItem.t);
}.
End Order.

(** [Omit<Order, 'id' | 'created_at' | 'updated_at' | 'order_items'>],
    the [orderData] argument of the create-order mutation. *)
Module OrderData.
Record t : Type := mk {
  order_number : string;
  customer_name : string;
  customer_email : string;
  customer_phone : option string;
  order_type : OrderType;
  status : OrderStatus;
  total_amount : number;
  notes : option string;
}.
End OrderData.

(** An element of the [items] argument of the create-order mutation. *)
Module ItemInput.
Record t : Type := mk {
  menu_item_id : string;
  quantity : number;
  price : number;
  selected_options : option JsRecord;
  selected_add_ons : option JsRecord;
}.
End ItemInput.

(** The object literal built by [items.map(...)] in the create-order
    mutation: both option mappings are always present. *)
Module NewItem.
Record t : Type := mk {
  order_id : string;
  menu_item_id : string;
  quantity : number;
  price : number;
  selected_options : JsRecord;
  selected_add_ons : JsRecord;
}.
End NewItem.

(** The object literal [{ status, updated_at }] of the update. *)
Module Patch.
Record t : Type := mk {
  status : OrderStatus;
  updated_at : timestamp;
}.
End Patch.

(** ** The objects of a select answer

    What [data as Order[]] is at run time: the objects the store answers,
    with a key for each column the select lists and no other.  [None] is
    an absent key; a value that can be null is an [option] of its own. *)
Module MenuItemsObject.
Record t : Type := mk {
  id : option string;
  name : option string;
  description : option string;
}.
End MenuItemsObject.

Module OrderItemObject.
Record t : Type := mk {
  id : option string;
  order_id : option string;
  menu_item_id : option string;
  quantity : option number;
  price : option number;
  selected_options : option (option JsRecord);
  selected_add_ons : option (option JsRecord);
  menu_items : option (option MenuItemsObject.t);
}.
End OrderItemObject.

Module OrderObject.
Record t : Type := mk {
  id : option string;
  order_number : option string;
  customer_name : option string;
  customer_email : option string;
  customer_phone : option (option string);
  order_type : option OrderType;
  status : option OrderStatus;
  total_amount : option number;
  notes : option (option string);
  created_at : option timestamp;
  updated_at : option timestamp;
  order_items : option (list OrderItemObject.t);
}.
End OrderObject.

(** The object that is a value of the interface: every key of the
    interface is present, and no other. *)
Definition MenuItems_object (m : MenuItems.t) : MenuItemsObject.t :=
  MenuItemsObject.mk None (Some (MenuItems.name m))
                     (Some (MenuItems.description m)).

Definition OrderItem_object (it : OrderItem.t) : OrderItemObject.t :=
  OrderItemObject.mk
    (Some (OrderItem.id it)) (Some (OrderItem.order_id it))
    (Some (OrderItem.menu_item_id it)) (Some (OrderItem.quantity it))
    (Some (OrderItem.price it)) (Some (OrderItem.selected_options it))
    (Some (OrderItem.selected_add_ons it))
    (Some (MenuItems_object <$> OrderItem.menu_items it)).

Definition Order_object (o : Order.t) : OrderObject.t :=
  OrderObject.mk
    (Some (Order.id o)) (Some (Order.order_number o))
    (Some (Order.customer_name o)) (Some (Order.customer_email o))
    (Some (Order.customer_phone o)) (Some (Order.order_type o))
    (Some (Order.status o)) (Some (Order.total_amount o))
    (Some (Order.notes o)) (Some (Order.created_at o))
    (Some (Order.updated_at o))
    ((fun its : list OrderItem.t => OrderItem_object <$> its) <$>
       Order.order_items o).

(** ** The remote store (Supabase / PostgREST)

    Modelled from the spec: the remote store boundary.  The store is a
    hosted service, reached through the client object of
    [@/integrations/supabase/client]; neither is in the sources.  The
    model has the tables and columns the spec lists ([orders],
    [order_items], [menu_items]) and the three operations it names:
    [select] with a nested-relation projection and an [order by] clause,
    [update] by equality filter returning the modified row, [insert]
    returning the inserted row, each read the way PostgREST serves the
    request the hooks build. *)
Module Supabase.

(** [PostgrestError] *)
Record PostgrestError : Type := mkError {
  message : string;
  details : string;
  hint : string;
  code : string;
}.

(** [PostgrestSingleResponse<T>]: either [{ data, error: null }] or
    [{ data: null, error }]. *)
Inductive Response (T : Type) : Type :=
| Success (data : T)
| Failure (error : PostgrestError).
Arguments Success {T} data.
Arguments Failure {T} error.

(** A row of table [orders]. *)
Module OrdersRow.
Record t : Type := mk {
  id : string;
  order_number : string;
  customer_name : string;
  customer_email : string;
  customer_phone : option string;
  order_type : OrderType;
  status : OrderStatus;
  total_amount : number;
  notes : option string;
  created_at : timestamp;
  updated_at : timestamp;
}.
End OrdersRow.

(** A row of table [order_items]. *)
Module OrderItemsRow.
Record t : Type := mk {
  id : string;
  order_id : string;
  menu_item_id : string;
  quantity : number;
  price : number;
  selected_options : option JsRecord;
  selected_add_ons : option JsRecord;
}.
End OrderItemsRow.

(** A row of table [menu_items], as far as the hooks can see it. *)
Module MenuItemsRow.
Record t : Type := mk {
  id : string;
  name : string;
  description : string;
}.
End MenuItemsRow.

Record Store : Type := mkStore {
  orders : list OrdersRow.t;
  order_items : list OrderItemsRow.t;
  menu_items : list MenuItemsRow.t;
  (** the store's [now()], the default of [created_at]/[updated_at] *)
  db_now : timestamp;
}.

(** A parsed [select] argument: plain columns and embedded relations,
    [rel (c1, c2, ...)]. *)
Inductive Col : Type :=
| Column (c : string)
| Embed (rel : string) (cols : list Col).

(** The sub-selection of relation [rel], when [cols] embeds it. *)
Fixpoint embedded (rel : string) (cols : list Col) : option (list Col) :=
  match cols with
  | [] => None
  | Embed r sub :: cols' =>
      if String.eqb r rel then Some sub else embedded rel cols'
  | Column _ :: cols' => embedded rel cols'
  end.

(** The requests the hooks put on the wire, one constructor per
    builder chain of the source. *)
Inductive Request : Type :=
(** [from('orders').select(columns).order('created_at', { ascending })] *)
| SelectOrders (columns : list Col) (ascending : bool)
(** [from('orders').update(values).eq('id', id).select().single()] *)
| UpdateOrders (values : Patch.t) (id : string)
(** [from('orders').insert(values).select().single()] *)
| InsertOrders (values : OrderData.t)
(** [from('order_items').insert(values)] *)
| InsertOrderItems (values : list NewItem.t).

(** *** Rows at the type of the interfaces

    The value, at the type of the TypeScript interface, of a row answered
    with all its columns ([select()] with no argument, as the mutations
    ask), and with the relations [cols] embeds. *)

Definition display (m : MenuItemsRow.t) : MenuItems.t :=
  MenuItems.mk (MenuItemsRow.name m) (MenuItemsRow.description m).

(** The many-to-one embedding [menu_items (name, description)] of an
    item: the referenced menu row, or null. *)
Definition menu_item_of (db : Store) (menu_item_id : string)
  : option MenuItems.t :=
  display <$>
    List.find (fun m => String.eqb (MenuItemsRow.id m) menu_item_id)
      (menu_items db).

Definition item_of_row (db : Store) (cols : list Col) (r : OrderItemsRow.t)
  : OrderItem.t :=
  OrderItem.mk
    (OrderItemsRow.id r) (OrderItemsRow.order_id r)
    (OrderItemsRow.menu_item_id r) (OrderItemsRow.quantity r)
    (OrderItemsRow.price r) (OrderItemsRow.selected_options r)
    (OrderItemsRow.selected_add_ons r)
    (match embedded "menu_items" cols with
     | Some _ => menu_item_of db (OrderItemsRow.menu_item_id r)
     | None => None
     end).

(** The one-to-many embedding [order_items (...)] of an order: the item
    rows whose foreign key is the order's id.  The select asks for no
    order among them; the model answers them as the table holds them,
    and the statements on the list query hold for any order. *)
Definition items_of (db : Store) (cols : list Col) (order_id : string)
  : list OrderItem.t :=
  item_of_row db cols <$>
    filter (fun r => OrderItemsRow.order_id r = order_id) (order_items db).

Definition order_of_row (db : Store) (cols : list Col) (r : OrdersRow.t)
  : Order.t :=
  Order.mk
    (OrdersRow.id r) (OrdersRow.order_number r) (OrdersRow.customer_name r)
    (OrdersRow.customer_email r) (OrdersRow.customer_phone r)
    (OrdersRow.order_type r) (OrdersRow.status r) (OrdersRow.total_amount r)
    (OrdersRow.notes r) (OrdersRow.created_at r) (OrdersRow.updated_at r)
    (match embedded "order_items" cols with
     | Some sub => Some (items_of db sub (OrdersRow.id r))
     | None => None
     end).

(** [ORDER BY created_at ASC] or [DESC], as a relation between a row
    and the rows that may follow it. *)
Definition by_created_at (ascending : bool) (a b : OrdersRow.t) : Prop :=
  if ascending
  then (OrdersRow.created_at a <= OrdersRow.created_at b)%Z
  else (OrdersRow.created_at b <= OrdersRow.created_at a)%Z.

Global Instance by_created_at_dec asc a b : Decision (by_created_at asc a b).
Proof. unfold by_created_at. destruct asc; apply _. Defined.

(** *** Projection

    A select answers, for each row, an object with the listed columns
    only; a column the table does not have, or a relation it is not
    related to, makes the whole request fail. *)

Definition columns_of (table : string) : list string :=
  if String.eqb table "orders" then
    ["id"; "order_number"; "customer_name"; "customer_email";
     "customer_phone"; "order_type"; "status"; "total_amount"; "notes";
     "created_at"; "updated_at"]
  else if String.eqb table "order_items" then
    ["id"; "order_id"; "menu_item_id"; "quantity"; "price";
     "selected_options"; "selected_add_ons"]
  else if String.eqb table "menu_items" then
    ["id"; "name"; "description"]
  else [].

Definition relations_of (table : string) : list string :=
  if String.eqb table "orders" then ["order_items"]
  else if String.eqb table "order_items" then ["menu_items"]
  else [].

Definition undefined_column (table c : string) : PostgrestError :=
  mkError ("column " +:+ table +:+ "." +:+ c +:+ " does not exist")
          EmptyString EmptyString "42703".

Definition no_relationship (table rel : string) : PostgrestError :=
  mkError ("Could not find a relationship between " +:+ table +:+ " and "
             +:+ rel)
          EmptyString EmptyString "PGRST200".

(** The first reason, if any, for which a select on [table] is refused. *)
Fixpoint col_error (table : string) (c : Col) : option PostgrestError :=
  match c with
  | Column name =>
      if String.eqb name "*" || bool_decide (name ∈ columns_of table)
      then None else Some (undefined_column table name)
  | Embed rel sub =>
      if bool_decide (rel ∈ relations_of table)
      then (fix go (l : list Col) : option PostgrestError :=
              match l with
              | [] => None
              | c' :: l' =>
                  match col_error rel c' with
                  | Some e => Some e
                  | None => go l'
                  end
              end) sub
      else Some (no_relationship table rel)
  end.

Fixpoint select_error (table : string) (cols : list Col)
  : option PostgrestError :=
  match cols with
  | [] => None
  | c :: cols' =>
      match col_error table c with
      | Some e => Some e
      | None => select_error table cols'
      end
  end.

(** Column [c] is listed: by name, or by [*]. *)
Fixpoint has_column (c : string) (cols : list Col) : bool :=
  match cols with
  | [] => false
  | Column c' :: cols' =>
      String.eqb c' c || String.eqb c' "*" || has_column c cols'
  | Embed _ _ :: cols' => has_column c cols'
  end.

(** The key of column [c] in the answered object. *)
Definition pick {A : Type} (c : string) (cols : list Col) (x : A) : option A :=
  if has_column c cols then Some x else None.

Definition menu_object (cols : list Col) (m : MenuItemsRow.t)
  : MenuItemsObject.t :=
  MenuItemsObject.mk
    (pick "id" cols (MenuItemsRow.id m))
    (pick "name" cols (MenuItemsRow.name m))
    (pick "description" cols (MenuItemsRow.description m)).

Definition item_object (db : Store) (cols : list Col) (r : OrderItemsRow.t)
  : OrderItemObject.t :=
  OrderItemObject.mk
    (pick "id" cols (OrderItemsRow.id r))
    (pick "order_id" cols (OrderItemsRow.order_id r))
    (pick "menu_item_id" cols (OrderItemsRow.menu_item_id r))
    (pick "quantity" cols (OrderItemsRow.quantity r))
    (pick "price" cols (OrderItemsRow.price r))
    (pick "selected_options" cols (OrderItemsRow.selected_options r))
    (pick "selected_add_ons" cols (OrderItemsRow.selected_add_ons r))
    (match embedded "menu_items" cols with
     | Some sub =>
         Some (menu_object sub <$>
                 List.find
                   (fun m =>
                      String.eqb (MenuItemsRow.id m)
                                 (OrderItemsRow.menu_item_id r))
                   (menu_items db))
     | None => None
     end).

Definition order_object (db : Store) (cols : list Col) (r : OrdersRow.t)
  : OrderObject.t :=
  OrderObject.mk
    (pick "id" cols (OrdersRow.id r))
    (pick "order_number" cols (OrdersRow.order_number r))
    (pick "customer_name" cols (OrdersRow.customer_name r))
    (pick "customer_email" cols (OrdersRow.customer_email r))
    (pick "customer_phone" cols (OrdersRow.customer_phone r))
    (pick "order_type" cols (OrdersRow.order_type r))
    (pick "status" cols (OrdersRow.status r))
    (pick "total_amount" cols (OrdersRow.total_amount r))
    (pick "notes" cols (OrdersRow.notes r))
    (pick "created_at" cols (OrdersRow.created_at r))
    (pick "updated_at" cols (OrdersRow.updated_at r))
    (match embedded "order_items" cols with
     | Some sub =>
         Some (item_object db sub <$>
                 filter (fun i => OrderItemsRow.order_id i = OrdersRow.id r)
                        (order_items db))
     | None => None
     end).

(** All rows of [orders], projected and ordered; the request of the hook
    has no filter and no range, and a row cap configured on the server is
    not part of the model. *)
Definition select_orders (cols : list Col) (ascending : bool) (db : Store)
  : Response (list OrderObject.t) * Store :=
  match select_error "orders" cols with
  | Some e => (Failure e, db)
  | None =>
      (Success (order_object db cols <$>
                  merge_sort (by_created_at ascending) (orders db)), db)
  end.

(** *** Writing *)

Definition set_orders (rows : list OrdersRow.t) (db : Store) : Store :=
  mkStore rows (order_items db) (menu_items db) (db_now db).

Definition set_order_items (rows : list OrderItemsRow.t) (db : Store)
  : Store :=
  mkStore (orders db) rows (menu_items db) (db_now db).

Definition apply_patch (p : Patch.t) (r : OrdersRow.t) : OrdersRow.t :=
  OrdersRow.mk
    (OrdersRow.id r) (OrdersRow.order_number r) (OrdersRow.customer_name r)
    (OrdersRow.customer_email r) (OrdersRow.customer_phone r)
    (OrdersRow.order_type r) (Patch.status p) (OrdersRow.total_amount r)
    (OrdersRow.notes r) (OrdersRow.created_at r) (Patch.updated_at p).

(** What [.single()] answers when the result is not exactly one row
    (the request then has no effect on the table). *)
Definition PGRST116 (rows : nat) : PostgrestError :=
  mkError "JSON object requested, multiple (or no) rows returned"
          ("The result contains " +:+ pretty rows +:+ " rows")
          EmptyString "PGRST116".

Definition update_orders_single (p : Patch.t) (id : string) (db : Store)
  : Response Order.t * Store :=
  match filter (fun r => OrdersRow.id r = id) (orders db) with
  | [r] =>
      (Success (order_of_row db [] (apply_patch p r)),
       set_orders
         ((fun r => if decide (OrdersRow.id r = id)
                    then apply_patch p r else r) <$> orders db) db)
  | rs => (Failure (PGRST116 (length rs)), db)
  end.

(** The store fills in [id], [created_at] and [updated_at]. *)
Definition new_order_row (d : OrderData.t) (db : Store) : OrdersRow.t :=
  OrdersRow.mk
    (fresh (OrdersRow.id <$> orders db))
    (OrderData.order_number d) (OrderData.customer_name d)
    (OrderData.customer_email d) (OrderData.customer_phone d)
    (OrderData.order_type d) (OrderData.status d)
    (OrderData.total_amount d) (OrderData.notes d)
    (db_now db) (db_now db).

Definition insert_orders_single (d : OrderData.t) (db : Store)
  : Response Order.t * Store :=
  let r := new_order_row d db in
  (Success (order_of_row db [] r), set_orders (orders db ++ [r]) db).

Definition new_item_row (ids : list string) (v : NewItem.t)
  : OrderItemsRow.t :=
  OrderItemsRow.mk
    (fresh ids) (NewItem.order_id v) (NewItem.menu_item_id v)
    (NewItem.quantity v) (NewItem.price v)
    (Some (NewItem.selected_options v)) (Some (NewItem.selected_add_ons v)).

Fixpoint append_items (rows : list OrderItemsRow.t) (values : list NewItem.t)
  : list OrderItemsRow.t :=
  match values with
  | [] => rows
  | v :: values' =>
      append_items
        (rows ++ [new_item_row (OrderItemsRow.id <$> rows) v]) values'
  end.

(** The two foreign keys of [order_items] (the embeddings of the list
    query rely on both). *)
Definition references_ok (db : Store) (v : NewItem.t) : Prop :=
  NewItem.order_id v ∈ (OrdersRow.id <$> orders db) ∧
  NewItem.menu_item_id v ∈ (MenuItemsRow.id <$> menu_items db).

Global Instance references_ok_dec db v : Decision (references_ok db v).
Proof. unfold references_ok. apply _. Defined.

Definition foreign_key_violation : PostgrestError :=
  mkError
    "insert or update on table order_items violates foreign key constraint"
    EmptyString EmptyString "23503".

(** A bulk insert is one statement: all rows or none. *)
Definition insert_order_items (values : list NewItem.t) (db : Store)
  : Response unit * Store :=
  if decide (Forall (references_ok db) values)
  then (Success (), set_order_items (append_items (order_items db) values) db)
  else (Failure foreign_key_violation, db).
End Supabase.

(** ** The notification boundary ([useToast]) *)
Module Toast.
Record t : Type := mk {
  title : string;
  description : string;
  variant : option string;
}.
End Toast.

(** ** The query cache ([useQueryClient]) *)
Module QueryClient.
(** The state the cache keeps for one query key. *)
Record Query : Type := mkQuery {
  data : option (list OrderObject.t);
  error : option Supabase.PostgrestError;
  isInvalidated : bool;
}.

Definition invalidate (q : Query) : Query :=
  mkQuery (data q) (error q) true.

(** [invalidateQueries({ queryKey })] marks stale every cached query
    whose key starts with [queryKey]. *)
Definition invalidateQueries (queryKey : list string)
    (qs : gmap (list string) Query) : gmap (list string) Query :=
  map_imap
    (fun k q => Some (if decide (queryKey `prefix_of` k)
                      then invalidate q else q)) qs.
End QueryClient.

(** ** The world the hooks run in *)

Record World : Type := mkWorld {
  (** the tables of the remote store *)
  remote : Supabase.Store;
  (** what the environment does to the next requests: [Some e] makes the
      request fail with [e] without reaching the tables, [None] lets the
      store serve it; an exhausted list serves everything.  A request
      that fails has not been applied (the spec's reading of a failed
      write); a write whose answer is lost on the way back is not
      modelled *)
  faults : list (option Supabase.PostgrestError);
  (** the requests sent so far, oldest first *)
  wire : list Supabase.Request;
  queries : gmap (list string) QueryClient.Query;
  (** the toasts shown so far, oldest first *)
  toasts : list Toast.t;
  (** the client's clock *)
  clock : timestamp;
  (** the time each of the next requests takes, in the unit of the
      clock; an exhausted list takes none *)
  elapsed : list nat;
}.

Definition set_remote (db : Supabase.Store) (w : World) : World :=
  mkWorld db (faults w) (wire w) (queries w) (toasts w) (clock w)
          (elapsed w).

(** A request is on the wire and its answer has come back: the clock has
    moved by the time it took. *)
Definition sent (rq : Supabase.Request) (w : World) : World :=
  mkWorld (remote w) (tail (faults w)) (wire w ++ [rq]) (queries w)
          (toasts w)
          (clock w + Z.of_nat (default 0%nat (head (elapsed w))))%Z
          (tail (elapsed w)).

Definition set_queries (qs : gmap (list string) QueryClient.Query) (w : World)
  : World :=
  mkWorld (remote w) (faults w) (wire w) qs (toasts w) (clock w)
          (elapsed w).

(** The same world some time later: the client's clock reads [t]. *)
Definition later (t : timestamp) (w : World) : World :=
  mkWorld (remote w) (faults w) (wire w) (queries w) (toasts w) t
          (elapsed w).

(** What the environment does to the next request. *)
Definition next_fault (w : World) : option Supabase.PostgrestError :=
  match faults w with
  | Some e :: _ => Some e
  | _ => None
  end.

(** The environment lets the next [n] requests through. *)
Definition undisturbed (n : nat) (w : World) : Prop :=
  Forall (fun f => f = None) (take n (faults w)).

(** ** Promises *)

(** How an [async] function settles; everything the hooks throw is an
    error object handed over by the store client. *)
Inductive Settled (A : Type) : Type :=
| Fulfilled (value : A)
| Rejected (reason : Supabase.PostgrestError).
Arguments Fulfilled {A} value.
Arguments Rejected {A} reason.

Definition Async (A : Type) : Type := World -> Settled A * World.

Global Instance Async_ret : MRet Async :=
  fun A (a : A) w => (Fulfilled a, w).

Global Instance Async_bind : MBind Async :=
  fun A B (k : A -> Async B) (m : Async A) w =>
    match m w with
    | (Fulfilled a, w') => k a w'
    | (Rejected e, w') => (Rejected e, w')
    end.

Definition throw {A : Type} (e : Supabase.PostgrestError) : Async A :=
  fun w => (Rejected e, w).

(** ** The store client *)

Module Import Client.
Import Supabase.

(** The type of [data] in the answer to a request. *)
Definition Data (rq : Request) : Type :=
  match rq with
  | SelectOrders _ _ => list OrderObject.t
  | UpdateOrders _ _ => Order.t
  | InsertOrders _ => Order.t
  | InsertOrderItems _ => unit
  end.

Definition serve (rq : Request) : Store -> Response (Data rq) * Store :=
  match rq with
  | SelectOrders cols ascending => select_orders cols ascending
  | UpdateOrders values id => update_orders_single values id
  | InsertOrders values => insert_orders_single values
  | InsertOrderItems values => insert_order_items values
  end.

(** Modelled from the spec: the client object [supabase] of
    [@/integrations/supabase/client].  [await supabase.from(...)...]
    sends one request; the client never throws, it resolves to a response
    that holds either the data or the error, whatever the failure
    (validation, network, constraint violation). *)
Definition supabase (rq : Request) : Async (Response (Data rq)) :=
  fun w =>
    match next_fault w with
    | Some e => (Fulfilled (Failure e), sent rq w)
    | None =>
        let '(r, db) := serve rq (remote w) in
        (Fulfilled r, set_remote db (sent rq w))
    end.
End Client.

(** [new Date().toISOString()]: the clock at the moment of the call. *)
Definition new_Date_toISOString : Async timestamp :=
  fun w => (Fulfilled (clock w), w).

(** Modelled from the spec: [toast] of [@/hooks/use-toast], the
    notification boundary: a fire-and-forget call that carries a title, a
    description and an optional severity, and returns nothing the hooks
    use. *)
Definition toast (t : Toast.t) (w : World) : World :=
  mkWorld (remote w) (faults w) (wire w) (queries w) (toasts w ++ [t])
          (clock w) (elapsed w).

(** [queryClient.invalidateQueries({ queryKey })]; the promise it
    returns is not awaited. *)
Definition invalidateQueries (queryKey : list string) (w : World) : World :=
  set_queries (QueryClient.invalidateQueries queryKey (queries w)) w.

(** ** [useQuery] and [useMutation] *)

Record QueryOptions : Type := mkQueryOptions {
  queryKey : list string;
  queryFn : Async (list OrderObject.t);
}.

(** One run of the query function by the cache, stored under the query
    key: a run that succeeds stores the data, fresh; a run that fails
    stores the error and keeps the data and the invalidation mark the
    entry had.  Whether the cache runs the function again after a failure
    is its configuration, which is not in the sources. *)
Definition fetchQuery (o : QueryOptions) (w : World) : World :=
  match queryFn o w with
  | (Fulfilled d, w') =>
      set_queries
        (<[queryKey o := QueryClient.mkQuery (Some d) None false]> (queries w'))
        w'
  | (Rejected e, w') =>
      set_queries
        (<[queryKey o :=
             QueryClient.mkQuery
               (queries w' !! queryKey o ≫= QueryClient.data) (Some e)
               (default false
                  (QueryClient.isInvalidated <$> queries w' !! queryKey o))]>
           (queries w'))
        w'
  end.

Record MutationOptions (V D : Type) : Type := mkMutationOptions {
  mutationFn : V -> Async D;
  onSuccess : D -> V -> World -> World;
  onError : Supabase.PostgrestError -> V -> World -> World;
}.
Arguments mkMutationOptions {V D}.
Arguments mutationFn {V D}.
Arguments onSuccess {V D}.
Arguments onError {V D}.

(** [mutateAsync(variables)]: the mutation function runs once, then the
    callback of its outcome, and the outcome is handed to the caller. *)
Definition mutateAsync {V D : Type} (o : MutationOptions V D) (v : V)
  : Async D :=
  fun w =>
    match mutationFn o v w with
    | (Fulfilled d, w') => (Fulfilled d, onSuccess o d v w')
    | (Rejected e, w') => (Rejected e, onError o e v w')
    end.

(** ** The hooks *)

Import Supabase.

(** The [select] argument of the list query. *)
Definition orders_select : list Col :=
  [ Column "id"; Column "order_number"; Column "customer_name";
    Column "customer_email"; Column "customer_phone"; Column "order_type";
    Column "status"; Column "total_amount"; Column "notes";
    Column "created_at"; Column "updated_at";
    Embed "order_items"
      [ Column "id"; Column "order_id"; Column "menu_item_id";
        Column "quantity"; Column "price"; Column "selected_options";
        Column "selected_add_ons";
        Embed "menu_items" [ Column "name"; Column "description" ] ] ].

Module useOrders.
(** [return data as Order[]]: the cast does nothing at run time, the
    function returns the objects the store answered. *)
Definition queryFn : Async (list OrderObject.t) :=
  r ← supabase (SelectOrders orders_select false);
  match r with
  | Failure error => throw error
  | Success data => mret data
  end.

Definition options : QueryOptions :=
  mkQueryOptions ["orders"] queryFn.
End useOrders.

Module useUpdateOrderStatus.
Record Variables : Type := mkVariables {
  id : string;
  status : OrderStatus;
}.

Definition mutationFn (v : Variables) : Async Order.t :=
  updated_at ← new_Date_toISOString;
  r ← supabase (UpdateOrders (Patch.mk (status v) updated_at) (id v));
  match r with
  | Failure error => throw error
  | Success data => mret data
  end.

Definition onSuccess (_ : Order.t) (_ : Variables) (w : World) : World :=
  toast
    (Toast.mk "Order status updated"
              "The order status has been updated successfully." None)
    (invalidateQueries ["orders"] w).

Definition onError (error : PostgrestError) (_ : Variables) (w : World)
  : World :=
  toast
    (Toast.mk "Error"
              ("Failed to update order status: " +:+ message error)
              (Some "destructive"))
    w.

Definition options : MutationOptions Variables Order.t :=
  mkMutationOptions mutationFn onSuccess onError.
End useUpdateOrderStatus.

Module useCreateOrder.
Record Variables : Type := mkVariables {
  orderData : OrderData.t;
  items : list ItemInput.t;
}.

(** [x || {}] on an optional record: an object is never falsy, so only
    an absent one is replaced. *)
Definition or_empty (x : option JsRecord) : JsRecord := default [] x.

Definition orderItems (order : Order.t) (items : list ItemInput.t)
  : list NewItem.t :=
  (fun item =>
     NewItem.mk
       (Order.id order)
       (ItemInput.menu_item_id item)
       (ItemInput.quantity item)
       (ItemInput.price item)
       (or_empty (ItemInput.selected_options item))
       (or_empty (ItemInput.selected_add_ons item))) <$> items.

Definition mutationFn (v : Variables) : Async Order.t :=
  r ← supabase (InsertOrders (orderData v));
  match r with
  | Failure orderError => throw orderError
  | Success order =>
      r' ← supabase (InsertOrderItems (orderItems order (items v)));
      match r' with
      | Failure itemsError => throw itemsError
      | Success _ => mret order
      end
  end.

Definition onSuccess (_ : Order.t) (_ : Variables) (w : World) : World :=
  toast
    (Toast.mk "Order created" "Your order has been placed successfully."
              None)
    (invalidateQueries ["orders"] w).

Definition onError (error : PostgrestError) (_ : Variables) (w : World)
  : World :=
  toast
    (Toast.mk "Error"
              ("Failed to create order: " +:+ message error)
              (Some "destructive"))
    w.

Definition options : MutationOptions Variables Order.t :=
  mkMutationOptions mutationFn onSuccess onError.
End useCreateOrder.

(** ** Vocabulary of the statements *)

(** [a] was created no earlier than [b]: [a] may precede [b] in a list
    that shows the most recent order first. *)
Definition newest_first (a b : Order.t) : Prop :=
  (Order.created_at b <= Order.created_at a)%Z.

Global Instance newest_first_dec a b : Decision (newest_first a b).
Proof. unfold newest_first. apply _. Defined.

(** An item of the list query shows an item row: column by column. *)
Definition shows_item_row (it : OrderItem.t) (row : OrderItemsRow.t) : Prop :=
  OrderItem.id it = OrderItemsRow.id row /\
  OrderItem.order_id it = OrderItemsRow.order_id row /\
  OrderItem.menu_item_id it = OrderItemsRow.menu_item_id row /\
  OrderItem.quantity it = OrderItemsRow.quantity row /\
  OrderItem.price it = OrderItemsRow.price row /\
  OrderItem.selected_options it = OrderItemsRow.selected_options row /\
  OrderItem.selected_add_ons it = OrderItemsRow.selected_add_ons row.

(** An item of the list query shows its menu item: the name and the
    description of a menu row with the item's [menu_item_id], and nothing
    only when no menu row has that id. *)
Definition shows_menu_item (db : Store) (it : OrderItem.t) : Prop :=
  match OrderItem.menu_items it with
  | Some d =>
      exists m,
        m ∈ menu_items db /\
        MenuItemsRow.id m = OrderItem.menu_item_id it /\
        MenuItems.name d = MenuItemsRow.name m /\
        MenuItems.description d = MenuItemsRow.description m
  | None => OrderItem.menu_item_id it ∉ (MenuItemsRow.id <$> menu_items db)
  end.

(** What an order of the list query carries for its items: the item rows
    that reference it, in some order (the select asks for none), each
    with the display fields of its menu item. *)
Definition carries_items (db : Store) (o : Order.t) : Prop :=
  exists its rows,
    Order.order_items o = Some its /\
    rows ≡ₚ filter (fun r => OrderItemsRow.order_id r = Order.id o)
                   (order_items db) /\
    Forall2 shows_item_row its rows /\
    Forall (fun it => OrderItem.order_id it = Order.id o) its /\
    Forall (shows_menu_item db) its.

(** An order of the list query shows an order row: column by column. *)
Definition shows_order_row (o : Order.t) (r : OrdersRow.t) : Prop :=
  Order.id o = OrdersRow.id r /\
  Order.order_number o = OrdersRow.order_number r /\
  Order.customer_name o = OrdersRow.customer_name r /\
  Order.customer_email o = OrdersRow.customer_email r /\
  Order.customer_phone o = OrdersRow.customer_phone r /\
  Order.order_type o = OrdersRow.order_type r /\
  Order.status o = OrdersRow.status r /\
  Order.total_amount o = OrdersRow.total_amount r /\
  Order.notes o = OrdersRow.notes r /\
  Order.created_at o = OrdersRow.created_at r /\
  Order.updated_at o = OrdersRow.updated_at r.

(** The request the update-status mutation sends. *)
Definition update_request (v : useUpdateOrderStatus.Variables) (w : World)
  : Request :=
  UpdateOrders
    (Patch.mk (useUpdateOrderStatus.status v) (clock w))
    (useUpdateOrderStatus.id v).

(** The item row the store holds for an inserted value. *)
Definition row_of_value (x : NewItem.t) (row : OrderItemsRow.t) : Prop :=
  OrderItemsRow.order_id row = NewItem.order_id x /\
  OrderItemsRow.menu_item_id row = NewItem.menu_item_id x /\
  OrderItemsRow.quantity row = NewItem.quantity x /\
  OrderItemsRow.price row = NewItem.price x /\
  OrderItemsRow.selected_options row = Some (NewItem.selected_options x) /\
  OrderItemsRow.selected_add_ons row = Some (NewItem.selected_add_ons x).

(** The item row the store holds for an input item of a created order:
    the order's id as foreign key, the item's own columns, and each option
    mapping as given, or the empty object when the input omits it. *)
Definition item_row_of (order : Order.t) (item : ItemInput.t)
    (row : OrderItemsRow.t) : Prop :=
  OrderItemsRow.order_id row = Order.id order /\
  OrderItemsRow.menu_item_id row = ItemInput.menu_item_id item /\
  OrderItemsRow.quantity row = ItemInput.quantity item /\
  OrderItemsRow.price row = ItemInput.price item /\
  OrderItemsRow.selected_options row =
    Some (match ItemInput.selected_options item with
          | Some x => x
          | None => []
          end) /\
  OrderItemsRow.selected_add_ons row =
    Some (match ItemInput.selected_add_ons item with
          | Some x => x
          | None => []
          end).

(** The order row the store holds for an order payload. *)
Definition order_row_of (d : OrderData.t) (r : OrdersRow.t) : Prop :=
  OrdersRow.order_number r = OrderData.order_number d /\
  OrdersRow.customer_name r = OrderData.customer_name d /\
  OrdersRow.customer_email r = OrderData.customer_email d /\
  OrdersRow.customer_phone r = OrderData.customer_phone d /\
  OrdersRow.order_type r = OrderData.order_type d /\
  OrdersRow.status r = OrderData.status d /\
  OrdersRow.total_amount r = OrderData.total_amount d /\
  OrdersRow.notes r = OrderData.notes d.

(** Either mutation of the module, with its variables. *)
Inductive Mutation : Type :=
| UpdateOrderStatus (v : useUpdateOrderStatus.Variables)
| CreateOrder (v : useCreateOrder.Variables).

Definition mutationFn_of (m : Mutation) : Async Order.t :=
  match m with
  | UpdateOrderStatus v => useUpdateOrderStatus.mutationFn v
  | CreateOrder v => useCreateOrder.mutationFn v
  end.

Definition run_mutation (m : Mutation) : Async Order.t :=
  match m with
  | UpdateOrderStatus v => mutateAsync useUpdateOrderStatus.options v
  | CreateOrder v => mutateAsync useCreateOrder.options v
  end.

(** The toasts of the two outcomes. *)
Definition success_toast (m : Mutation) : Toast.t :=
  match m with
  | UpdateOrderStatus _ =>
      Toast.mk "Order status updated"
               "The order status has been updated successfully." None
  | CreateOrder _ =>
      Toast.mk "Order created" "Your order has been placed successfully." None
  end.

Definition error_toast (m : Mutation) (e : PostgrestError) : Toast.t :=
  Toast.mk "Error"
    (match m with
     | UpdateOrderStatus _ => "Failed to update order status: "
     | CreateOrder _ => "Failed to create order: "
     end +:+ message e)
    (Some "destructive").

(** An update leaves a row as it was, up to the two columns it sets. *)
Definition same_but_status (a b : OrdersRow.t) : Prop :=
  OrdersRow.id a = OrdersRow.id b /\
  OrdersRow.order_number a = OrdersRow.order_number b /\
  OrdersRow.customer_name a = OrdersRow.customer_name b /\
  OrdersRow.customer_email a = OrdersRow.customer_email b /\
  OrdersRow.customer_phone a = OrdersRow.customer_phone b /\
  OrdersRow.order_type a = OrdersRow.order_type b /\
  OrdersRow.total_amount a = OrdersRow.total_amount b /\
  OrdersRow.notes a = OrdersRow.notes b /\
  OrdersRow.created_at a = OrdersRow.created_at b.

(** An item of the list query shows an input item of the create-order
    mutation, as an item of the given order. *)
Definition shows_input (order : Order.t) (item : ItemInput.t)
    (it : OrderItem.t) : Prop :=
  OrderItem.order_id it = Order.id order /\
  OrderItem.menu_item_id it = ItemInput.menu_item_id item /\
  OrderItem.quantity it = ItemInput.quantity item /\
  OrderItem.price it = ItemInput.price item /\
  OrderItem.selected_options it =
    Some (match ItemInput.selected_options item with
          | Some x => x
          | None => []
          end) /\
  OrderItem.selected_add_ons it =
    Some (match ItemInput.selected_add_ons item with
          | Some x => x
          | None => []
          end) /\
  is_Some (OrderItem.menu_items it).

(** Two orders agree on the columns of the order row. *)
Definition same_columns (a b : Order.t) : Prop :=
  Order.id a = Order.id b /\
  Order.order_number a = Order.order_number b /\
  Order.customer_name a = Order.customer_name b /\
  Order.customer_email a = Order.customer_email b /\
  Order.customer_phone a = Order.customer_phone b /\
  Order.order_type a = Order.order_type b /\
  Order.status a = Order.status b /\
  Order.total_amount a = Order.total_amount b /\
  Order.notes a = Order.notes b /\
  Order.created_at a = Order.created_at b /\
  Order.updated_at a = Order.updated_at b.

(** ** Sample data *)
Module Sample.
Definition pizza : MenuItemsRow.t :=
  MenuItemsRow.mk "m1" "Pizza" "Margherita".
Definition cola : MenuItemsRow.t :=
  MenuItemsRow.mk "m2" "Cola" "Cold drink".

Definition o1 : OrdersRow.t :=
  OrdersRow.mk "o1" "A-001" "Ann" "ann@example.org" None dine_in new
               (25 # 2)%Q None 100%Z 100%Z.
Definition o2 : OrdersRow.t :=
  OrdersRow.mk "o2" "A-002" "Bob" "bob@example.org" (Some "555") takeaway
               preparing (3 # 1)%Q (Some "no ice") 300%Z 310%Z.
Definition o3 : OrdersRow.t :=
  OrdersRow.mk "o3" "A-003" "Cy" "cy@example.org" None dine_in served
               (8 # 1)%Q None 200%Z 250%Z.

Definition i1 : OrderItemsRow.t :=
  OrderItemsRow.mk "i1" "o1" "m1" (1 # 1)%Q (19 # 2)%Q (Some []) (Some []).
Definition i2 : OrderItemsRow.t :=
  OrderItemsRow.mk "i2" "o1" "m2" (1 # 1)%Q (3 # 1)%Q None None.
Definition i3 : OrderItemsRow.t :=
  OrderItemsRow.mk "i3" "o2" "m2" (1 # 1)%Q (3 # 1)%Q
                   (Some [("size", JStr "L")]) None.

Definition db : Store :=
  mkStore [o1; o2; o3] [i1; i2; i3] [pizza; cola] 1000%Z.

Definition cached : gmap (list string) QueryClient.Query :=
  {[ ["orders"] := QueryClient.mkQuery (Some []) None false;
     ["menu"] := QueryClient.mkQuery None None false ]}.

Definition world (fs : list (option PostgrestError)) : World :=
  mkWorld db fs [] cached [] 2000%Z [].

Definition timeout : PostgrestError :=
  mkError "TypeError: Failed to fetch" EmptyString EmptyString EmptyString.

Definition data : OrderData.t :=
  OrderData.mk "A-004" "Dee" "dee@example.org" None takeaway new
               (25 # 2)%Q None.
Definition item_a : ItemInput.t :=
  ItemInput.mk "m1" (1 # 1)%Q (19 # 2)%Q None
               (Some [("cheese", JBool true)]).
Definition item_b : ItemInput.t :=
  ItemInput.mk "m2" (2 # 1)%Q (3 # 1)%Q None None.
Definition item_bad : ItemInput.t :=
  ItemInput.mk "m9" (1 # 1)%Q (1 # 1)%Q None None.
End Sample.

(** * Properties *)

(** ** The store client *)

Section client.
Implicit Types (w : World) (rq : Request) (e : PostgrestError).

Lemma undisturbed_next n w : undisturbed (S n) w -> next_fault w = None.
Proof.
  unfold undisturbed, next_fault. destruct (faults w) as [|[e|] fs]; try done.
  cbn. by intros [[=] _]%Forall_cons.
Qed.

Lemma undisturbed_sent n w rq : undisturbed (S n) w -> undisturbed n (sent rq w).
Proof.
  unfold undisturbed. cbn. destruct (faults w) as [|f fs]; cbn.
  - intros _. by rewrite take_nil.
  - by intros [_ ?]%Forall_cons.
Qed.

Lemma undisturbed_set_remote n w db :
  undisturbed n (set_remote db w) <-> undisturbed n w.
Proof. done. Qed.

Lemma supabase_fault rq w e :
  next_fault w = Some e ->
  supabase rq w = (Fulfilled (Failure e), sent rq w).
Proof. unfold supabase. by intros ->. Qed.

Lemma supabase_served rq w :
  next_fault w = None ->
  supabase rq w =
    (Fulfilled (serve rq (remote w)).1,
     set_remote (serve rq (remote w)).2 (sent rq w)).
Proof. unfold supabase. intros ->. by destruct (serve rq (remote w)). Qed.

(** A request is answered, logged, and touches nothing on the client
    but the log. *)
Lemma supabase_frame rq w :
  exists r w',
    supabase rq w = (Fulfilled r, w') /\
    wire w' = wire w ++ [rq] /\ queries w' = queries w /\
    toasts w' = toasts w /\ (clock w <= clock w')%Z /\
    faults w' = tail (faults w).
Proof.
  unfold supabase. destruct (next_fault w).
  - eexists _, _. split_and!; try done. cbn. lia.
  - destruct (serve rq (remote w)). eexists _, _.
    split_and!; try done. cbn. lia.
Qed.

(** A request that fails leaves the tables as they were. *)
Lemma supabase_failure_remote rq w e w' :
  supabase rq w = (Fulfilled (Failure e), w') -> remote w' = remote w.
Proof.
  unfold supabase. destruct (next_fault w); [by intros [= _ <-]|].
  destruct rq; cbn.
  - unfold select_orders. destruct (select_error _ _); cbn; intros;
      by simplify_eq.
  - unfold update_orders_single.
    repeat case_match; intros; by simplify_eq.
  - intros [=].
  - unfold insert_order_items. case_decide; intros; by simplify_eq.
Qed.
End client.

(** ** Reading the store *)

Section reading.
Implicit Types (db : Store) (cols : list Col).

Global Instance by_created_at_total asc : Total (by_created_at asc).
Proof. intros a b. unfold by_created_at. destruct asc; lia. Qed.

Global Instance by_created_at_trans asc : Transitive (by_created_at asc).
Proof. intros a b c. unfold by_created_at. destruct asc; lia. Qed.

Lemma menu_item_of_Some db mid d :
  menu_item_of db mid = Some d ->
  exists m, m ∈ menu_items db /\ MenuItemsRow.id m = mid /\
            MenuItems.name d = MenuItemsRow.name m /\
            MenuItems.description d = MenuItemsRow.description m.
Proof.
  unfold menu_item_of. intros Hd.
  destruct (find _ _) as [m|] eqn:Hm; simplify_eq/=.
  apply find_some in Hm as [Hin Heq]. exists m.
  rewrite list_elem_of_In. by apply String.eqb_eq in Heq.
Qed.

Lemma menu_item_of_is_Some db mid :
  is_Some (menu_item_of db mid) <-> mid ∈ MenuItemsRow.id <$> menu_items db.
Proof.
  unfold menu_item_of. rewrite fmap_is_Some, list_elem_of_fmap. split.
  - intros [m Hm]. apply find_some in Hm as [Hin Heq].
    exists m. rewrite list_elem_of_In. by apply String.eqb_eq in Heq.
  - intros (m & -> & Hin). destruct (find _ _) eqn:Hm; [done|].
    apply list_elem_of_In in Hin.
    eapply find_none in Hm; [|done]. cbn in Hm.
    by rewrite String.eqb_refl in Hm.
Qed.

Lemma order_of_row_carries db r :
  carries_items db (order_of_row db orders_select r).
Proof.
  eexists _, _. split; [reflexivity|]. cbn. unfold items_of.
  split; [reflexivity|]. split_and!.
  - apply Forall2_fmap_l, Forall_Forall2_diag, Forall_forall.
    intros row _. by repeat split.
  - apply Forall_fmap, Forall_forall.
    by intros x [Hx _]%list_elem_of_filter.
  - apply Forall_fmap, Forall_forall. intros row _. cbn.
    unfold shows_menu_item. cbn.
    destruct (menu_item_of db (OrderItemsRow.menu_item_id row)) as [d|] eqn:Hd.
    + by apply menu_item_of_Some.
    + rewrite <-menu_item_of_is_Some, Hd. by intros [? [=]].
Qed.

(** The select of the hook names columns and relations the tables have. *)
Lemma orders_select_valid : select_error "orders" orders_select = None.
Proof. vm_compute. reflexivity. Qed.

(** The select of the hook lists every key of the interfaces, and no
    other: the object answered for a row is the row at the type of the
    interface. *)
Lemma order_object_full db r :
  order_object db orders_select r =
    Order_object (order_of_row db orders_select r).
Proof.
  unfold order_object, Order_object, order_of_row. cbn. f_equal. f_equal.
  unfold items_of. rewrite <-list_fmap_compose. apply list_fmap_ext.
  intros i row _. unfold item_object, OrderItem_object, item_of_row. cbn.
  f_equal. f_equal. unfold menu_item_of. by destruct (find _ _).
Qed.

Lemma select_orders_served db asc :
  select_orders orders_select asc db =
    (Success
       (Order_object <$>
          (order_of_row db orders_select <$>
             merge_sort (by_created_at asc) (orders db))), db).
Proof.
  unfold select_orders. rewrite orders_select_valid. do 2 f_equal.
  rewrite <-list_fmap_compose. apply list_fmap_ext. intros i r _.
  apply order_object_full.
Qed.

Lemma sorted_rows_newest_first db :
  StronglySorted newest_first
    (order_of_row db orders_select <$>
       merge_sort (by_created_at false) (orders db)).
Proof.
  eapply StronglySorted_fmap;
    [|apply (StronglySorted_merge_sort (by_created_at false))].
  done.
Qed.
End reading.

(** ** The list query *)

Section list_query.
Implicit Types (w : World).

Lemma queryFn_served w :
  next_fault w = None ->
  useOrders.queryFn w =
    (Fulfilled
       (Order_object <$>
          (order_of_row (remote w) orders_select <$>
             merge_sort (by_created_at false) (orders (remote w)))),
     sent (SelectOrders orders_select false) w).
Proof.
  intros Hw. unfold useOrders.queryFn, mbind, Async_bind.
  rewrite supabase_served by done. cbn -[orders_select].
  rewrite select_orders_served. cbn -[orders_select]. by destruct w.
Qed.

Lemma queryFn_failed w e w' :
  supabase (SelectOrders orders_select false) w = (Fulfilled (Failure e), w') ->
  useOrders.queryFn w = (Rejected e, w').
Proof.
  intros Hw. unfold useOrders.queryFn, mbind, Async_bind. by rewrite Hw.
Qed.
End list_query.

(** C1: the list query takes no argument; when the store serves it, it
    returns one object per row of table [orders] (the full set).  Each
    object has exactly the keys of the [Order] interface, with the
    columns of its row, the item rows that reference the order, each with
    the keys of [OrderItem] and, under [menu_items], the name and the
    description of its menu item.  The list shows the most recently
    created order first, whatever the order of the rows in the table. *)
Theorem list_orders_full_newest_first (w : World) :
  next_fault w = None ->
  exists data listed rows,
    useOrders.queryFn w =
      (Fulfilled data, sent (SelectOrders orders_select false) w) /\
    data = Order_object <$> listed /\
    rows ≡ₚ orders (remote w) /\
    Forall2 shows_order_row listed rows /\
    Forall (carries_items (remote w)) listed /\
    StronglySorted newest_first listed.
Proof.
  intros Hw.
  exists (Order_object <$>
            (order_of_row (remote w) orders_select <$>
               merge_sort (by_created_at false) (orders (remote w)))),
         (order_of_row (remote w) orders_select <$>
            merge_sort (by_created_at false) (orders (remote w))),
         (merge_sort (by_created_at false) (orders (remote w))).
  split; [by apply queryFn_served|]. split; [reflexivity|]. split_and!.
  - apply merge_sort_Permutation.
  - apply Forall2_fmap_l, Forall_Forall2_diag, Forall_forall.
    intros r _. by repeat split.
  - apply Forall_fmap, Forall_forall. intros r _.
    apply order_of_row_carries.
  - apply sorted_rows_newest_first.
Qed.

Lemma list_orders_witness :
  next_fault (Sample.world []) = None /\
  exists data listed rows,
    useOrders.queryFn (Sample.world []) =
      (Fulfilled data, sent (SelectOrders orders_select false) (Sample.world [])) /\
    data = Order_object <$> listed /\
    rows ≡ₚ orders Sample.db /\
    Forall2 shows_order_row listed rows /\
    Forall (carries_items Sample.db) listed /\
    StronglySorted newest_first listed.
Proof.
  split; [reflexivity|].
  apply (list_orders_full_newest_first (Sample.world [])). reflexivity.
Defined.

(** The list of the sample store: o2 (created at 300), o3 (200), o1 (100),
    although the table holds them as o1, o2, o3; and the object of o2,
    key by key. *)
Example list_orders_sample :
  (fun r => match r with
            | Fulfilled data =>
                (fun o => (OrderObject.id o, OrderObject.created_at o)) <$> data
            | Rejected _ => []
            end) (useOrders.queryFn (Sample.world [])).1
  = [(Some "o2", Some 300%Z); (Some "o3", Some 200%Z);
     (Some "o1", Some 100%Z)].
Proof. vm_compute. reflexivity. Qed.

Example list_orders_sample_object :
  (fun r => match r with
            | Fulfilled data => head data
            | Rejected _ => None
            end) (useOrders.queryFn (Sample.world [])).1
  = Some
      (OrderObject.mk
         (Some "o2") (Some "A-002") (Some "Bob") (Some "bob@example.org")
         (Some (Some "555")) (Some takeaway) (Some preparing)
         (Some (3 # 1)%Q) (Some (Some "no ice")) (Some 300%Z) (Some 310%Z)
         (Some
            [OrderItemObject.mk
               (Some "i3") (Some "o2") (Some "m2") (Some (1 # 1)%Q)
               (Some (3 # 1)%Q) (Some (Some [("size", JStr "L")]))
               (Some None)
               (Some (Some (MenuItemsObject.mk None (Some "Cola")
                                               (Some "Cold drink"))))])).
Proof. vm_compute. reflexivity. Qed.

(** A select that lists fewer columns answers objects without their
    keys, and a column the table does not have makes the request fail. *)
Example select_orders_projects :
  (select_orders [Column "id"; Column "status"] false Sample.db).1
  = Success
      [OrderObject.mk (Some "o2") None None None None None (Some preparing)
                      None None None None None;
       OrderObject.mk (Some "o3") None None None None None (Some served)
                      None None None None None;
       OrderObject.mk (Some "o1") None None None None None (Some new)
                      None None None None None].
Proof. vm_compute. reflexivity. Qed.

Example select_orders_unknown_column :
  (select_orders [Column "id"; Column "state"] false Sample.db).1
  = Failure (undefined_column "orders" "state").
Proof. vm_compute. reflexivity. Qed.

(** C8: when the fetch of the list query fails, the query function
    rejects with the very error the store client handed over, and does
    nothing else; the cache then holds that error for key [orders]. *)
Theorem list_orders_error_verbatim (w w' : World) (e : PostgrestError) :
  supabase (SelectOrders orders_select false) w = (Fulfilled (Failure e), w') ->
  useOrders.queryFn w = (Rejected e, w') /\
  remote w' = remote w /\
  QueryClient.error <$> (queries (fetchQuery useOrders.options w) !! ["orders"])
    = Some (Some e).
Proof.
  intros Hw. split; [by apply queryFn_failed|].
  split; [by eapply supabase_failure_remote|].
  unfold fetchQuery. cbn. rewrite (queryFn_failed _ _ _ Hw). cbn.
  by rewrite lookup_insert_eq.
Qed.

Lemma list_orders_error_witness :
  supabase (SelectOrders orders_select false) (Sample.world [Some Sample.timeout])
    = (Fulfilled (Failure Sample.timeout),
       sent (SelectOrders orders_select false) (Sample.world [Some Sample.timeout])) /\
  useOrders.queryFn (Sample.world [Some Sample.timeout])
    = (Rejected Sample.timeout,
       sent (SelectOrders orders_select false) (Sample.world [Some Sample.timeout])).
Proof.
  split; [reflexivity|].
  apply (list_orders_error_verbatim (Sample.world [Some Sample.timeout])).
  reflexivity.
Defined.

(** ** The update-status mutation *)

Section update_status.
Implicit Types (w : World) (v : useUpdateOrderStatus.Variables).

Lemma all_statuses_complete (st : OrderStatus) : st ∈ all_statuses.
Proof. unfold all_statuses. destruct st; set_solver. Qed.

Lemma update_mutationFn_unfold v w :
  useUpdateOrderStatus.mutationFn v w =
    match supabase (update_request v w) w with
    | (Fulfilled (Success data), w') => (Fulfilled data, w')
    | (Fulfilled (Failure error), w') => (Rejected error, w')
    | (Rejected e, w') => (Rejected e, w')
    end.
Proof.
  unfold useUpdateOrderStatus.mutationFn, mbind, Async_bind,
    new_Date_toISOString, update_request.
  destruct (supabase _ w) as [[[?|?]|?] ?]; done.
Qed.

(** No row has an id that is not in the id column. *)
Lemma filter_id_nil (id : string) (rows : list OrdersRow.t) :
  id ∉ (OrdersRow.id <$> rows) ->
  filter (fun r => OrdersRow.id r = id) rows = [].
Proof.
  intros Hid. induction rows as [|r rows IH]; [done|].
  rewrite fmap_cons, not_elem_of_cons in Hid. destruct Hid as [Hne Hid].
  rewrite filter_cons, decide_False by done. auto.
Qed.

(** The id column is the primary key of [orders]: an id that is in the
    column selects one row. *)
Lemma filter_id_singleton (id : string) (rows : list OrdersRow.t) :
  NoDup (OrdersRow.id <$> rows) ->
  id ∈ (OrdersRow.id <$> rows) ->
  exists r, filter (fun r => OrdersRow.id r = id) rows = [r].
Proof.
  induction rows as [|a rows IH]; [by intros _ ?%elem_of_nil|].
  rewrite fmap_cons, NoDup_cons, elem_of_cons, filter_cons.
  intros [Ha Hrows] Hid. case_decide as Heq.
  - exists a. subst id. by rewrite filter_id_nil.
  - destruct Hid as [->|Hid]; [done|]. auto.
Qed.

(** The rows a filter keeps, one by one. *)
Lemma filter_singleton_lookup {A} (P : A -> Prop) `{!forall x, Decision (P x)}
    (l : list A) (x : A) :
  filter P l = [x] ->
  exists i, l !! i = Some x /\ P x /\
            forall j y, l !! j = Some y -> P y -> j = i.
Proof.
  induction l as [|a l IH]; [done|]. rewrite filter_cons.
  case_decide as Ha.
  - intros [= -> Hnil]. exists 0. split_and!; [done..|].
    intros [|j] y Hy HP; [done|]. cbn in Hy.
    assert (y ∈ filter P l) as Hin
      by (apply list_elem_of_filter; eauto using list_elem_of_lookup_2).
    rewrite Hnil in Hin. by apply not_elem_of_nil in Hin.
  - intros (i & Hi & HP & Huniq)%IH. exists (S i). split_and!; [done..|].
    intros [|j] y Hy HPy; cbn in Hy; [by simplify_eq|].
    f_equal. eauto.
Qed.

Lemma fmap_update_at {A} (P : A -> Prop) `{!forall x, Decision (P x)}
    (f : A -> A) (l : list A) (i : nat) (x : A) :
  l !! i = Some x -> P x ->
  (forall j y, l !! j = Some y -> P y -> j = i) ->
  (fun y => if decide (P y) then f y else y) <$> l = <[i := f x]> l.
Proof.
  intros Hi HP Huniq. apply list_eq. intros j.
  rewrite list_lookup_fmap. destruct (decide (j = i)) as [->|Hne].
  - rewrite list_lookup_insert_eq by eauto using lookup_lt_Some.
    rewrite Hi. cbn. by rewrite decide_True.
  - rewrite list_lookup_insert_ne by done.
    destruct (l !! j) as [y|] eqn:Hj; [|done]. cbn.
    rewrite decide_False; [done|]. intros HPy. eauto.
Qed.

Lemma update_orders_single_Success p id db o db' :
  update_orders_single p id db = (Success o, db') ->
  exists i r,
    orders db !! i = Some r /\ OrdersRow.id r = id /\
    (forall j r', orders db !! j = Some r' -> OrdersRow.id r' = id -> j = i) /\
    db' = set_orders (<[i := apply_patch p r]> (orders db)) db /\
    o = order_of_row db [] (apply_patch p r).
Proof.
  unfold update_orders_single.
  destruct (filter _ (orders db)) as [|r [|??]] eqn:Hf; intros [=]; subst.
  apply filter_singleton_lookup in Hf as (i & Hi & Hid & Huniq).
  exists i, r. split_and!; [done..| |done].
  f_equal. by apply (fmap_update_at (fun y => OrdersRow.id y = id)).
Qed.

Lemma update_orders_single_Failure p id db e db' :
  update_orders_single p id db = (Failure e, db') ->
  db' = db /\ code e = "PGRST116" /\
  length (filter (fun r => OrdersRow.id r = id) (orders db)) ≠ 1.
Proof.
  unfold update_orders_single.
  destruct (filter _ (orders db)) as [|r [|??]] eqn:Hf; intros [=]; by subst.
Qed.

Lemma update_run_served v w :
  next_fault w = None ->
  useUpdateOrderStatus.mutationFn v w =
    match update_orders_single
            (Patch.mk (useUpdateOrderStatus.status v) (clock w))
            (useUpdateOrderStatus.id v) (remote w) with
    | (Success data, db) =>
        (Fulfilled data, set_remote db (sent (update_request v w) w))
    | (Failure e, db) =>
        (Rejected e, set_remote db (sent (update_request v w) w))
    end.
Proof.
  intros Hw. rewrite update_mutationFn_unfold, supabase_served by done.
  cbn. by destruct (update_orders_single _ _ _) as [[?|?] ?].
Qed.

Lemma update_run_fault v w e :
  next_fault w = Some e ->
  useUpdateOrderStatus.mutationFn v w =
    (Rejected e, sent (update_request v w) w).
Proof.
  intros Hw.
  by rewrite update_mutationFn_unfold, (supabase_fault _ _ e) by done.
Qed.
End update_status.

(** The update succeeds when the store serves the request and exactly one
    row has the id. *)
Lemma update_status_succeeds (w : World) (id : string) (st : OrderStatus)
    (r : OrdersRow.t) :
  next_fault w = None ->
  filter (fun x => OrdersRow.id x = id) (orders (remote w)) = [r] ->
  exists w',
    useUpdateOrderStatus.mutationFn (useUpdateOrderStatus.mkVariables id st) w
      = (Fulfilled (order_of_row (remote w) []
                      (apply_patch (Patch.mk st (clock w)) r)), w').
Proof.
  intros Hw Hf. rewrite update_run_served by done. cbn.
  unfold update_orders_single. rewrite Hf. by eexists.
Qed.

(** C2: for every id and every status, the update-status mutation
    succeeds whenever the id is the id of an order (the id column being
    the primary key of [orders]) and the store serves the request; and
    every run that succeeds has updated exactly one row of [orders], the
    only row with that id: its status is the given one and its
    [updated_at] the current time of the client, its other columns and
    all other rows and tables are as before, and the updated row is what
    the run returns. *)
Theorem update_status_exactly_one_row
    (w : World) (id : string) (st : OrderStatus) :
  (next_fault w = None ->
   NoDup (OrdersRow.id <$> orders (remote w)) ->
   id ∈ (OrdersRow.id <$> orders (remote w)) ->
   exists o w',
     useUpdateOrderStatus.mutationFn (useUpdateOrderStatus.mkVariables id st) w
       = (Fulfilled o, w')) /\
  (forall o w',
     useUpdateOrderStatus.mutationFn (useUpdateOrderStatus.mkVariables id st) w
       = (Fulfilled o, w') ->
     exists i r r',
       orders (remote w) !! i = Some r /\ OrdersRow.id r = id /\
       (forall j x,
          orders (remote w) !! j = Some x -> OrdersRow.id x = id -> j = i) /\
       r' = OrdersRow.mk
              id (OrdersRow.order_number r) (OrdersRow.customer_name r)
              (OrdersRow.customer_email r) (OrdersRow.customer_phone r)
              (OrdersRow.order_type r) st (OrdersRow.total_amount r)
              (OrdersRow.notes r) (OrdersRow.created_at r) (clock w) /\
       orders (remote w') = <[i := r']> (orders (remote w)) /\
       (forall j, j ≠ i -> orders (remote w') !! j = orders (remote w) !! j) /\
       order_items (remote w') = order_items (remote w) /\
       menu_items (remote w') = menu_items (remote w) /\
       o = order_of_row (remote w) [] r' /\
       Order.id o = id /\ Order.status o = st /\ Order.updated_at o = clock w).
Proof.
  split.
  - intros Hw Hkey Hid.
    destruct (filter_id_singleton id _ Hkey Hid) as [r Hr].
    destruct (update_status_succeeds w id st r Hw Hr) as [w' Hrun]. eauto.
  - intros o w' Hrun. destruct (next_fault w) as [e|] eqn:Hw.
    { by rewrite (update_run_fault _ _ e) in Hrun. }
    rewrite update_run_served in Hrun by done. cbn in Hrun.
    destruct (update_orders_single _ _ _) as [[o'|e] db'] eqn:Hupd;
      simplify_eq.
    apply update_orders_single_Success in Hupd
      as (i & r & Hi & Hid & Huniq & -> & ->).
    exists i, r, (apply_patch (Patch.mk st (clock w)) r).
    split_and!; try done.
    + unfold apply_patch. cbn. by rewrite Hid.
    + intros j Hj. cbn. by rewrite list_lookup_insert_ne.
Qed.

Lemma update_status_witness :
  exists o w',
    useUpdateOrderStatus.mutationFn
      (useUpdateOrderStatus.mkVariables "o1" preparing) (Sample.world [])
      = (Fulfilled o, w') /\
    exists i r r',
      orders Sample.db !! i = Some r /\ OrdersRow.id r = "o1" /\
      (forall j x,
         orders Sample.db !! j = Some x -> OrdersRow.id x = "o1" -> j = i) /\
      r' = OrdersRow.mk
             "o1" (OrdersRow.order_number r) (OrdersRow.customer_name r)
             (OrdersRow.customer_email r) (OrdersRow.customer_phone r)
             (OrdersRow.order_type r) preparing (OrdersRow.total_amount r)
             (OrdersRow.notes r) (OrdersRow.created_at r) 2000%Z /\
      orders (remote w') = <[i := r']> (orders Sample.db) /\
      (forall j, j ≠ i -> orders (remote w') !! j = orders Sample.db !! j) /\
      order_items (remote w') = order_items Sample.db /\
      menu_items (remote w') = menu_items Sample.db /\
      o = order_of_row Sample.db [] r' /\
      Order.id o = "o1" /\ Order.status o = preparing /\
      Order.updated_at o = 2000%Z.
Proof.
  destruct (update_status_exactly_one_row (Sample.world []) "o1" preparing)
    as [Hsucceeds Heffect].
  destruct Hsucceeds as (o & w' & Hrun).
  - reflexivity.
  - apply (bool_decide_unpack _). vm_compute. exact I.
  - apply (bool_decide_unpack _). vm_compute. exact I.
  - exists o, w'. split; [exact Hrun|]. exact (Heffect o w' Hrun).
Defined.

(** The sample run: row o1 is updated in place, o2 and o3 are as they
    were. *)
Example update_status_sample :
  (fun r => (OrdersRow.id r, OrdersRow.status r, OrdersRow.updated_at r)) <$>
    orders
      (remote
         (useUpdateOrderStatus.mutationFn
            (useUpdateOrderStatus.mkVariables "o1" preparing)
            (Sample.world [])).2)
  = [("o1", preparing, 2000%Z); ("o2", preparing, 310%Z);
     ("o3", served, 250%Z)].
Proof. vm_compute. reflexivity. Qed.

(** ** The cache and the toasts *)

Section callbacks.
Implicit Types (w : World) (m : Mutation) (e : PostgrestError).

Lemma invalidateQueries_lookup (key k : list string)
    (qs : gmap (list string) QueryClient.Query) :
  QueryClient.invalidateQueries key qs !! k =
    (fun q => if decide (key `prefix_of` k)
              then QueryClient.invalidate q else q) <$> qs !! k.
Proof.
  unfold QueryClient.invalidateQueries. rewrite map_lookup_imap.
  by destruct (qs !! k).
Qed.

(** Neither mutation function touches the cache or the toasts: it only
    talks to the store, and time does not run backwards meanwhile. *)
Lemma mutationFn_frame m w r w' :
  mutationFn_of m w = (r, w') ->
  queries w' = queries w /\ toasts w' = toasts w /\
  (clock w <= clock w')%Z.
Proof.
  destruct m as [v|v]; cbn.
  - rewrite update_mutationFn_unfold.
    destruct (supabase_frame (update_request v w) w)
      as (r1 & w1 & -> & _ & ? & ? & ? & _).
    destruct r1; intros [= <- <-]; done.
  - unfold useCreateOrder.mutationFn, mbind, Async_bind.
    destruct (supabase_frame
                (InsertOrders (useCreateOrder.orderData v)) w)
      as (r1 & w1 & -> & _ & Hq & Ht & Hc & _).
    destruct r1 as [order|e]; [|intros [= <- <-]; done].
    destruct (supabase_frame
                (InsertOrderItems
                   (useCreateOrder.orderItems order (useCreateOrder.items v)))
                w1)
      as (r2 & w2 & -> & _ & Hq2 & Ht2 & Hc2 & _).
    destruct r2; intros [= <- <-]; split_and!; try congruence; lia.
Qed.

Lemma run_mutation_Rejected m w e w1 :
  mutationFn_of m w = (Rejected e, w1) ->
  run_mutation m w = (Rejected e, toast (error_toast m e) w1).
Proof.
  destruct m as [v|v]; cbn; unfold mutateAsync; cbn; by intros ->.
Qed.

Lemma run_mutation_Fulfilled m w d w1 :
  mutationFn_of m w = (Fulfilled d, w1) ->
  run_mutation m w =
    (Fulfilled d, toast (success_toast m) (invalidateQueries ["orders"] w1)).
Proof.
  destruct m as [v|v]; cbn; unfold mutateAsync; cbn; by intros ->.
Qed.
End callbacks.

(** C6: whenever the mutation function of either mutation fails, the
    mutation fails with the same error, every cache entry (the one under
    key [orders] included) is as it was, and one toast is added: title
    [Error], the failure text of the mutation followed by the message of
    the error, variant [destructive]. *)
Theorem mutation_failure_keeps_cache
    (m : Mutation) (w w1 : World) (e : PostgrestError) :
  mutationFn_of m w = (Rejected e, w1) ->
  exists w2,
    run_mutation m w = (Rejected e, w2) /\
    queries w2 = queries w /\
    queries w2 !! ["orders"] = queries w !! ["orders"] /\
    toasts w2 = toasts w ++ [error_toast m e] /\
    Toast.description (error_toast m e) =
      match m with
      | UpdateOrderStatus _ => "Failed to update order status: "
      | CreateOrder _ => "Failed to create order: "
      end +:+ message e.
Proof.
  intros Hrun. eexists. split; [by apply run_mutation_Rejected|].
  apply mutationFn_frame in Hrun as (Hq & Ht & _). cbn.
  rewrite Hq, Ht. done.
Qed.

(** C7: whenever the mutation function of either mutation succeeds, the
    mutation succeeds with the same row, every cache entry whose key
    starts with [orders] is marked invalidated (its data is kept until
    the refetch), the other entries are as they were, and the success
    toast of the mutation is added. *)
Theorem mutation_success_invalidates
    (m : Mutation) (w w1 : World) (d : Order.t) :
  mutationFn_of m w = (Fulfilled d, w1) ->
  exists w2,
    run_mutation m w = (Fulfilled d, w2) /\
    (forall q, queries w !! ["orders"] = Some q ->
       queries w2 !! ["orders"] =
         Some (QueryClient.mkQuery (QueryClient.data q) (QueryClient.error q)
                                   true)) /\
    (forall k, ["orders"] `prefix_of` k ->
       QueryClient.isInvalidated <$> queries w2 !! k =
         (fun _ => true) <$> queries w !! k) /\
    (forall k, ~ ["orders"] `prefix_of` k ->
       queries w2 !! k = queries w !! k) /\
    toasts w2 = toasts w ++ [success_toast m] /\
    remote w2 = remote w1.
Proof.
  intros Hrun. eexists. split; [by apply run_mutation_Fulfilled|].
  apply mutationFn_frame in Hrun as (Hq & Ht & _). cbn.
  rewrite Hq, Ht. split_and!; try done.
  - intros q Hq'. rewrite invalidateQueries_lookup, Hq'. cbn.
    by rewrite decide_True.
  - intros k Hk. rewrite invalidateQueries_lookup.
    destruct (queries w !! k); cbn; [|done]. by rewrite decide_True.
  - intros k Hk. rewrite invalidateQueries_lookup.
    destruct (queries w !! k); cbn; [|done]. by rewrite decide_False.
Qed.

Lemma mutation_failure_witness :
  exists e w1 w2,
    mutationFn_of
      (UpdateOrderStatus (useUpdateOrderStatus.mkVariables "zz" ready))
      (Sample.world []) = (Rejected e, w1) /\
    run_mutation
      (UpdateOrderStatus (useUpdateOrderStatus.mkVariables "zz" ready))
      (Sample.world []) = (Rejected e, w2) /\
    queries w2 = Sample.cached /\
    toasts w2 =
      [Toast.mk "Error"
         "Failed to update order status: JSON object requested, multiple (or no) rows returned"
         (Some "destructive")].
Proof.
  destruct (mutation_failure_keeps_cache
              (UpdateOrderStatus (useUpdateOrderStatus.mkVariables "zz" ready))
              (Sample.world [])
              (sent (UpdateOrders (Patch.mk ready 2000%Z) "zz") (Sample.world []))
              (PGRST116 0))
    as (w2 & Hrun & Hq & _ & Ht & _); [vm_compute; reflexivity|].
  eexists _, _, w2. split; [vm_compute; reflexivity|]. by split_and!.
Defined.

Lemma mutation_success_witness :
  exists d w1 w2,
    mutationFn_of
      (UpdateOrderStatus (useUpdateOrderStatus.mkVariables "o1" preparing))
      (Sample.world []) = (Fulfilled d, w1) /\
    run_mutation
      (UpdateOrderStatus (useUpdateOrderStatus.mkVariables "o1" preparing))
      (Sample.world []) = (Fulfilled d, w2) /\
    queries w2 !! ["orders"] = Some (QueryClient.mkQuery (Some []) None true) /\
    queries w2 !! ["menu"] = Some (QueryClient.mkQuery None None false) /\
    toasts w2 =
      [Toast.mk "Order status updated"
                "The order status has been updated successfully." None].
Proof.
  eexists _, _.
  destruct (mutation_success_invalidates
              (UpdateOrderStatus (useUpdateOrderStatus.mkVariables "o1" preparing))
              (Sample.world []) _ _ ltac:(vm_compute; reflexivity))
    as (w2 & Hrun & Ho & _ & Hother & Ht & _).
  exists w2. split; [vm_compute; reflexivity|]. split_and!; [done| | |done].
  - apply (Ho (QueryClient.mkQuery (Some []) None false)).
    vm_compute. reflexivity.
  - rewrite Hother; [vm_compute; reflexivity|]. by intros [k [=]].
Defined.

(** ** Ids that match no row *)

(** C10: for every id that no row of [orders] has, the update-status
    mutation fails; when the store serves the request the error is the
    one of [.single()] for a result of no rows.  No table changes, no
    cache entry is invalidated, and the error toast is shown. *)
Theorem update_status_unknown_id (w : World) (id : string) (st : OrderStatus) :
  id ∉ (OrdersRow.id <$> orders (remote w)) ->
  exists e w',
    run_mutation (UpdateOrderStatus (useUpdateOrderStatus.mkVariables id st)) w
      = (Rejected e, w') /\
    (next_fault w = None -> e = PGRST116 0) /\
    remote w' = remote w /\
    queries w' = queries w /\
    toasts w' =
      toasts w ++
        [Toast.mk "Error" ("Failed to update order status: " +:+ message e)
                  (Some "destructive")].
Proof.
  intros Hid. set (v := useUpdateOrderStatus.mkVariables id st).
  destruct (next_fault w) as [e|] eqn:Hw.
  - exists e. eexists. split.
    + apply run_mutation_Rejected. cbn. by apply update_run_fault.
    + done.
  - exists (PGRST116 0). eexists. split.
    + apply run_mutation_Rejected. cbn. rewrite update_run_served by done.
      unfold update_orders_single. cbn. by rewrite filter_id_nil.
    + done.
Qed.

Lemma update_status_unknown_id_witness :
  ("zz" ∉ (OrdersRow.id <$> orders Sample.db)) /\
  exists e w',
    run_mutation (UpdateOrderStatus (useUpdateOrderStatus.mkVariables "zz" served))
           (Sample.world []) = (Rejected e, w') /\
    (next_fault (Sample.world []) = None -> e = PGRST116 0) /\
    remote w' = Sample.db /\
    queries w' = Sample.cached /\
    toasts w' =
      [Toast.mk "Error" ("Failed to update order status: " +:+ message e)
                (Some "destructive")].
Proof.
  assert ("zz" ∉ (OrdersRow.id <$> orders Sample.db)) as Hid.
  { apply (bool_decide_unpack _). vm_compute. exact I. }
  split; [exact Hid|].
  exact (update_status_unknown_id (Sample.world []) "zz" served Hid).
Defined.

(** ** The create-order mutation *)

Section create_order.
Implicit Types (w : World) (v : useCreateOrder.Variables) (db : Store).

Lemma create_mutationFn_unfold v w :
  useCreateOrder.mutationFn v w =
    match supabase (InsertOrders (useCreateOrder.orderData v)) w with
    | (Fulfilled (Failure orderError), w1) => (Rejected orderError, w1)
    | (Fulfilled (Success order), w1) =>
        match supabase
                (InsertOrderItems
                   (useCreateOrder.orderItems order (useCreateOrder.items v)))
                w1 with
        | (Fulfilled (Failure itemsError), w2) => (Rejected itemsError, w2)
        | (Fulfilled (Success _), w2) => (Fulfilled order, w2)
        | (Rejected e, w2) => (Rejected e, w2)
        end
    | (Rejected e, w1) => (Rejected e, w1)
    end.
Proof.
  unfold useCreateOrder.mutationFn, mbind, Async_bind.
  destruct (supabase _ w) as [[[order|?]|?] w1]; [|done..].
  by destruct (supabase _ w1) as [[[?|?]|?] ?].
Qed.

(** The store appends one row per value, in the order of the values. *)
Lemma append_items_app rows values :
  exists news,
    append_items rows values = rows ++ news /\
    Forall2 row_of_value values news.
Proof.
  revert rows. induction values as [|x values IH]; intros rows; cbn.
  - exists []. by rewrite app_nil_r.
  - destruct (IH (rows ++ [new_item_row (OrderItemsRow.id <$> rows) x]))
      as (news & -> & Hnews).
    eexists (_ :: news). rewrite <-app_assoc. split; [done|].
    by constructor.
Qed.

(** The ids the store gives to new item rows are new, so the primary key
    of [order_items] is kept. *)
Lemma append_items_NoDup rows values :
  NoDup (OrderItemsRow.id <$> rows) ->
  NoDup (OrderItemsRow.id <$> append_items rows values).
Proof.
  revert rows. induction values as [|x values IH]; intros rows Hrows; [done|].
  cbn. apply IH. rewrite fmap_app. apply NoDup_app. split_and!; [done| |].
  - intros i Hi [->|[]%elem_of_nil]%elem_of_cons. cbn in Hi.
    by apply infinite_is_fresh in Hi.
  - cbn. apply NoDup_singleton.
Qed.

Lemma insert_orders_single_spec d db :
  insert_orders_single d db =
    (Success (order_of_row db [] (new_order_row d db)),
     set_orders (orders db ++ [new_order_row d db]) db) /\
  order_row_of d (new_order_row d db) /\
  OrdersRow.id (new_order_row d db) ∉ (OrdersRow.id <$> orders db).
Proof.
  split_and!; [done|by repeat split|]. cbn. apply infinite_is_fresh.
Qed.

Lemma insert_order_items_Success values db u db' :
  insert_order_items values db = (Success u, db') ->
  db' = set_order_items (append_items (order_items db) values) db /\
  Forall (references_ok db) values.
Proof. unfold insert_order_items. case_decide; intros; by simplify_eq. Qed.

Lemma orderItems_rows order items news :
  Forall2 row_of_value (useCreateOrder.orderItems order items) news ->
  Forall2 (item_row_of order) items news.
Proof.
  unfold useCreateOrder.orderItems. rewrite Forall2_fmap_l.
  intros H. eapply Forall2_impl; [exact H|]. clear H.
  intros item row. cbn. unfold item_row_of, row_of_value. cbn.
  intros (-> & -> & -> & -> & -> & ->). by split_and!.
Qed.

(** The first step: what the order insert answers, and when. *)
Lemma insert_order_outcome w d r w1 :
  supabase (InsertOrders d) w = (Fulfilled r, w1) ->
  match r with
  | Success order =>
      next_fault w = None /\
      order = order_of_row (remote w) [] (new_order_row d (remote w)) /\
      w1 = set_remote
             (set_orders (orders (remote w) ++ [new_order_row d (remote w)])
                         (remote w))
             (sent (InsertOrders d) w)
  | Failure e => next_fault w = Some e /\ w1 = sent (InsertOrders d) w
  end.
Proof.
  unfold supabase. destruct (next_fault w); cbn; intros; by simplify_eq.
Qed.

Lemma insert_items_outcome w vs r w2 :
  supabase (InsertOrderItems vs) w = (Fulfilled r, w2) ->
  wire w2 = wire w ++ [InsertOrderItems vs] /\
  orders (remote w2) = orders (remote w) /\
  menu_items (remote w2) = menu_items (remote w) /\
  match r with
  | Success _ =>
      order_items (remote w2) = append_items (order_items (remote w)) vs
  | Failure e => order_items (remote w2) = order_items (remote w)
  end.
Proof.
  unfold supabase. destruct (next_fault w); cbn.
  - intros; by simplify_eq.
  - unfold insert_order_items. case_decide; intros; by simplify_eq.
Qed.
End create_order.

(** The next request of an undisturbed world is served. *)
Ltac served Hw :=
  rewrite supabase_served;
  [cbn
  |first [ by eauto using undisturbed_next
         | eapply undisturbed_next, undisturbed_set_remote,
             undisturbed_sent, Hw ]].

(** A create-order run succeeds when the store serves both requests and
    every item names a row of [menu_items]: the order row it has just
    inserted satisfies the other foreign key. *)
Lemma create_order_succeeds (w : World) (v : useCreateOrder.Variables) :
  undisturbed 2 w ->
  Forall (fun item =>
            ItemInput.menu_item_id item ∈
              (MenuItemsRow.id <$> menu_items (remote w)))
         (useCreateOrder.items v) ->
  exists order w',
    useCreateOrder.mutationFn v w = (Fulfilled order, w').
Proof.
  intros Hw Hmenu. rewrite create_mutationFn_unfold.
  served Hw. served Hw. unfold insert_order_items. rewrite decide_True; [by eexists _, _|].
  unfold useCreateOrder.orderItems. apply Forall_fmap.
  eapply Forall_impl; [exact Hmenu|]. intros item Hitem.
  split; cbn; [|done]. rewrite fmap_app, elem_of_app. right.
  by apply list_elem_of_singleton.
Qed.

(** C3: a create-order run that succeeds on N items has appended
    exactly N rows to [order_items], one per item and in their order,
    each with the id of the created order as [order_id], the columns of
    its item, and for each option mapping the given one or the empty
    object when the item omits it; one row was appended to [orders] from
    the payload, and it is what the run returns, without items. *)
Theorem create_order_item_rows
    (w w' : World) (v : useCreateOrder.Variables) (order : Order.t) :
  useCreateOrder.mutationFn v w = (Fulfilled order, w') ->
  exists (r : OrdersRow.t) (rows : list OrderItemsRow.t),
    orders (remote w') = orders (remote w) ++ [r] /\
    order_row_of (useCreateOrder.orderData v) r /\
    order = order_of_row (remote w) [] r /\
    Order.id order = OrdersRow.id r /\
    Order.order_items order = None /\
    order_items (remote w') = order_items (remote w) ++ rows /\
    length rows = length (useCreateOrder.items v) /\
    Forall2 (item_row_of order) (useCreateOrder.items v) rows.
Proof.
  rewrite create_mutationFn_unfold.
  destruct (supabase _ w) as [[[o|?]|?] w1] eqn:H1; [|done..].
  destruct (supabase _ w1) as [[[[]|?]|?] w2] eqn:H2; [|done..].
  intros [= -> ->].
  apply insert_order_outcome in H1 as (_ & -> & ->).
  apply insert_items_outcome in H2 as (_ & Horders & _ & Hitems).
  cbn in Horders, Hitems.
  destruct (append_items_app (order_items (remote w))
              (useCreateOrder.orderItems
                 (order_of_row (remote w) []
                    (new_order_row (useCreateOrder.orderData v) (remote w)))
                 (useCreateOrder.items v)))
    as (rows & Happ & Hrows).
  exists (new_order_row (useCreateOrder.orderData v) (remote w)), rows.
  split_and!; try done.
  - by rewrite Hitems.
  - apply Forall2_length in Hrows. unfold useCreateOrder.orderItems in Hrows.
    by rewrite length_fmap in Hrows.
  - by apply orderItems_rows.
Qed.

Lemma create_order_item_rows_witness :
  exists order w',
    useCreateOrder.mutationFn
      (useCreateOrder.mkVariables Sample.data [Sample.item_a; Sample.item_b])
      (Sample.world []) = (Fulfilled order, w') /\
    exists (r : OrdersRow.t) (rows : list OrderItemsRow.t),
      orders (remote w') = orders Sample.db ++ [r] /\
      order_row_of Sample.data r /\
      order = order_of_row Sample.db [] r /\
      Order.id order = OrdersRow.id r /\
      Order.order_items order = None /\
      order_items (remote w') = order_items Sample.db ++ rows /\
      length rows = 2 /\
      Forall2 (item_row_of order) [Sample.item_a; Sample.item_b] rows.
Proof.
  eexists _, _. split; [vm_compute; reflexivity|].
  eapply (create_order_item_rows (Sample.world [])
            _ (useCreateOrder.mkVariables Sample.data
                 [Sample.item_a; Sample.item_b])).
  vm_compute. reflexivity.
Defined.

(** The two item rows of the sample run: the absent option mappings have
    become empty objects, the given one is kept. *)
Example create_order_sample_rows :
  drop 3
    (order_items
       (remote
          (useCreateOrder.mutationFn
             (useCreateOrder.mkVariables Sample.data
                [Sample.item_a; Sample.item_b])
             (Sample.world [])).2))
  = [ OrderItemsRow.mk "0" "0" "m1" (1 # 1)%Q (19 # 2)%Q
        (Some []) (Some [("cheese", JBool true)]);
      OrderItemsRow.mk "1" "0" "m2" (2 # 1)%Q (3 # 1)%Q (Some []) (Some []) ].
Proof. vm_compute. reflexivity. Qed.

(** C4: the first request of every create-order run is the insert of the
    order row, and the only request that can follow it is one insert of
    item rows; when the order insert fails, the run fails with that very
    error, the order insert is the only request that was sent, and the
    tables (so [order_items] too) are as they were. *)
Theorem create_order_insert_first
    (w : World) (v : useCreateOrder.Variables) :
  (exists rest,
     wire (useCreateOrder.mutationFn v w).2 =
       wire w ++ InsertOrders (useCreateOrder.orderData v) :: rest /\
     (rest = [] \/
      exists order,
        rest = [InsertOrderItems
                  (useCreateOrder.orderItems order (useCreateOrder.items v))])) /\
  (forall e w1,
     supabase (InsertOrders (useCreateOrder.orderData v)) w
       = (Fulfilled (Failure e), w1) ->
     useCreateOrder.mutationFn v w = (Rejected e, w1) /\
     wire w1 = wire w ++ [InsertOrders (useCreateOrder.orderData v)] /\
     order_items (remote w1) = order_items (remote w) /\
     remote w1 = remote w).
Proof.
  split.
  - rewrite create_mutationFn_unfold.
    destruct (supabase_frame (InsertOrders (useCreateOrder.orderData v)) w)
      as (r1 & w1 & -> & Hwire1 & _).
    destruct r1 as [order|e]; cbn; [|exists []; auto].
    destruct (supabase_frame
                (InsertOrderItems
                   (useCreateOrder.orderItems order (useCreateOrder.items v)))
                w1)
      as (r2 & w2 & -> & Hwire2 & _).
    eexists [_]. split; [|right; by eexists].
    destruct r2 as [[]|?]; cbn; by rewrite Hwire2, Hwire1, <-app_assoc.
  - intros e w1 H1. rewrite create_mutationFn_unfold, H1.
    apply insert_order_outcome in H1 as (_ & ->). done.
Qed.

Lemma create_order_insert_first_witness :
  supabase (InsertOrders Sample.data) (Sample.world [Some Sample.timeout])
    = (Fulfilled (Failure Sample.timeout),
       sent (InsertOrders Sample.data) (Sample.world [Some Sample.timeout])) /\
  useCreateOrder.mutationFn
    (useCreateOrder.mkVariables Sample.data [Sample.item_a])
    (Sample.world [Some Sample.timeout])
    = (Rejected Sample.timeout,
       sent (InsertOrders Sample.data) (Sample.world [Some Sample.timeout])).
Proof.
  split; [reflexivity|].
  apply (create_order_insert_first
           (Sample.world [Some Sample.timeout])
           (useCreateOrder.mkVariables Sample.data [Sample.item_a])).
  reflexivity.
Defined.

(** C5: when the order insert has succeeded and the insert of the items
    fails, the run fails with the error of the item insert; the order
    row of the first step is in [orders], no item row was written, and
    the two inserts are the only requests that were sent (nothing undoes
    the first).  What the caller gets is that error and the error toast
    made from its message, the same as when the order insert itself
    fails with that error. *)
Theorem create_order_partial_failure
    (w w1 w2 : World) (v : useCreateOrder.Variables) (order : Order.t)
    (e : PostgrestError) :
  supabase (InsertOrders (useCreateOrder.orderData v)) w
    = (Fulfilled (Success order), w1) ->
  supabase
    (InsertOrderItems (useCreateOrder.orderItems order (useCreateOrder.items v)))
    w1 = (Fulfilled (Failure e), w2) ->
  useCreateOrder.mutationFn v w = (Rejected e, w2) /\
  (exists r,
     orders (remote w2) = orders (remote w) ++ [r] /\
     OrdersRow.id r = Order.id order /\
     order_row_of (useCreateOrder.orderData v) r) /\
  order_items (remote w2) = order_items (remote w) /\
  wire w2 =
    wire w ++
      [InsertOrders (useCreateOrder.orderData v);
       InsertOrderItems
         (useCreateOrder.orderItems order (useCreateOrder.items v))] /\
  (exists w3,
     run_mutation (CreateOrder v) w = (Rejected e, w3) /\
     remote w3 = remote w2 /\
     queries w3 = queries w /\
     toasts w3 =
       toasts w ++
         [Toast.mk "Error" ("Failed to create order: " +:+ message e)
                   (Some "destructive")]) /\
  (forall wa,
     next_fault wa = Some e ->
     exists wb,
       run_mutation (CreateOrder v) wa = (Rejected e, wb) /\
       toasts wb =
         toasts wa ++
           [Toast.mk "Error" ("Failed to create order: " +:+ message e)
                     (Some "destructive")]).
Proof.
  intros H1 H2.
  assert (useCreateOrder.mutationFn v w = (Rejected e, w2)) as Hrun
    by (by rewrite create_mutationFn_unfold, H1, H2).
  pose proof (mutationFn_frame (CreateOrder v) _ _ _ Hrun) as (Hq & Ht & _).
  apply insert_order_outcome in H1 as (_ & -> & ->).
  apply insert_items_outcome in H2 as (Hwire & Horders & _ & Hitems).
  cbn in Hwire, Horders, Hitems. split_and!; try done.
  - eexists. split; [done|]. by repeat split.
  - by rewrite Hwire, <-app_assoc.
  - eexists. split; [by apply run_mutation_Rejected|]. cbn. by rewrite Hq, Ht.
  - intros wa Hwa. eexists. split.
    + apply run_mutation_Rejected. cbn.
      by rewrite create_mutationFn_unfold, (supabase_fault _ _ e).
    + done.
Qed.

Lemma create_order_partial_failure_witness :
  exists order w1 w2,
    supabase (InsertOrders Sample.data) (Sample.world [])
      = (Fulfilled (Success order), w1) /\
    supabase (InsertOrderItems
                (useCreateOrder.orderItems order
                   [Sample.item_a; Sample.item_bad])) w1
      = (Fulfilled (Failure foreign_key_violation), w2) /\
    useCreateOrder.mutationFn
      (useCreateOrder.mkVariables Sample.data [Sample.item_a; Sample.item_bad])
      (Sample.world []) = (Rejected foreign_key_violation, w2) /\
    (exists r,
       orders (remote w2) = orders Sample.db ++ [r] /\
       OrdersRow.id r = Order.id order /\
       order_row_of Sample.data r) /\
    order_items (remote w2) = order_items Sample.db.
Proof.
  eexists _, _, _.
  split; [vm_compute; reflexivity|]. split; [vm_compute; reflexivity|].
  destruct (create_order_partial_failure
              (Sample.world []) _ _
              (useCreateOrder.mkVariables Sample.data
                 [Sample.item_a; Sample.item_bad])
              _ foreign_key_violation
              ltac:(vm_compute; reflexivity) ltac:(vm_compute; reflexivity))
    as (Hrun & Hrow & Hitems & _).
  by split_and!.
Defined.

(** C9: a create-order call with no items, served by the store, creates
    the order row, sends an insert of no rows that leaves [order_items]
    as it was, and succeeds: it returns the created order and shows the
    success toast, no error. *)
Theorem create_order_no_items (w : World) (d : OrderData.t) :
  undisturbed 2 w ->
  exists order r w',
    run_mutation (CreateOrder (useCreateOrder.mkVariables d [])) w
      = (Fulfilled order, w') /\
    orders (remote w') = orders (remote w) ++ [r] /\
    order_row_of d r /\
    order = order_of_row (remote w) [] r /\
    order_items (remote w') = order_items (remote w) /\
    wire w' = wire w ++ [InsertOrders d; InsertOrderItems []] /\
    toasts w' =
      toasts w ++
        [Toast.mk "Order created" "Your order has been placed successfully."
                  None].
Proof.
  intros Hw. eexists _, _, _. split.
  { apply run_mutation_Fulfilled. cbn. rewrite create_mutationFn_unfold.
    served Hw. served Hw. reflexivity. }
  cbn. split_and!; try done. by rewrite <-app_assoc.
Qed.

Lemma create_order_no_items_witness :
  undisturbed 2 (Sample.world []) /\
  exists order r w',
    run_mutation (CreateOrder (useCreateOrder.mkVariables Sample.data []))
           (Sample.world []) = (Fulfilled order, w') /\
    orders (remote w') = orders Sample.db ++ [r] /\
    order_row_of Sample.data r /\
    order = order_of_row Sample.db [] r /\
    order_items (remote w') = order_items Sample.db /\
    wire w' = [InsertOrders Sample.data; InsertOrderItems []] /\
    toasts w' =
      [Toast.mk "Order created" "Your order has been placed successfully."
                None].
Proof.
  assert (undisturbed 2 (Sample.world [])) as Hw by constructor.
  split; [exact Hw|].
  exact (create_order_no_items (Sample.world []) Sample.data Hw).
Defined.

(** ** The primary keys and the order of the rows *)

Section store_invariants.
Implicit Types (db : Store).

(** An update changes no id. *)
Lemma update_orders_single_ids p id db r db' :
  update_orders_single p id db = (r, db') ->
  OrdersRow.id <$> orders db' = OrdersRow.id <$> orders db.
Proof.
  unfold update_orders_single.
  destruct (filter _ (orders db)) as [|? [|??]]; intros [= <- <-]; try done.
  cbn. rewrite <-list_fmap_compose. apply list_fmap_ext.
  intros i x _. cbn. by case_decide.
Qed.

(** The id the store gives to a new order is new. *)
Lemma insert_orders_single_NoDup d db r db' :
  insert_orders_single d db = (r, db') ->
  NoDup (OrdersRow.id <$> orders db) ->
  NoDup (OrdersRow.id <$> orders db').
Proof.
  intros [= <- <-] Hdb. cbn. rewrite fmap_app. apply NoDup_app.
  split_and!; [done| |apply NoDup_singleton].
  intros i Hi [->|[]%elem_of_nil]%elem_of_cons.
  by apply infinite_is_fresh in Hi.
Qed.

(** Two tables with the same rows in another order give lists with the
    same orders, both with the most recent order first. *)
Lemma list_orders_insertion_order (w1 w2 : World) :
  next_fault w1 = None -> next_fault w2 = None ->
  orders (remote w1) ≡ₚ orders (remote w2) ->
  order_items (remote w1) = order_items (remote w2) ->
  menu_items (remote w1) = menu_items (remote w2) ->
  exists listed1 listed2,
    (useOrders.queryFn w1).1 = Fulfilled (Order_object <$> listed1) /\
    (useOrders.queryFn w2).1 = Fulfilled (Order_object <$> listed2) /\
    listed1 ≡ₚ listed2 /\
    StronglySorted newest_first listed1 /\
    StronglySorted newest_first listed2.
Proof.
  intros H1 H2 Horders Hitems Hmenu.
  rewrite !queryFn_served by done. eexists _, _.
  split; [done|]. split; [done|]. split_and!.
  - rewrite !merge_sort_Permutation, Horders.
    erewrite list_fmap_ext; [done|]. intros i r _.
    unfold order_of_row, items_of, item_of_row, menu_item_of.
    cbn. by rewrite Hitems, Hmenu.
  - apply sorted_rows_newest_first.
  - apply sorted_rows_newest_first.
Qed.
End store_invariants.

(** * Further properties of the hooks *)

(** ** What the callbacks leave alone *)

Section runs.
Implicit Types (w : World) (m : Mutation) (e : PostgrestError).

(** The callbacks of a mutation do not talk to the store. *)
Lemma run_mutation_inv m w r w2 :
  run_mutation m w = (r, w2) ->
  exists w1,
    mutationFn_of m w = (r, w1) /\
    remote w2 = remote w1 /\ faults w2 = faults w1 /\
    wire w2 = wire w1 /\ clock w2 = clock w1.
Proof.
  destruct (mutationFn_of m w) as [[d|e] w1] eqn:Hrun.
  - rewrite (run_mutation_Fulfilled _ _ _ _ Hrun). intros [= <- <-].
    by exists w1.
  - rewrite (run_mutation_Rejected _ _ _ _ Hrun). intros [= <- <-].
    by exists w1.
Qed.

Lemma next_fault_faults w w' : faults w' = faults w -> next_fault w' = next_fault w.
Proof. unfold next_fault. by intros ->. Qed.

Lemma update_orders_single_fmap p id db r db' :
  update_orders_single p id db = (r, db') ->
  order_items db' = order_items db /\ menu_items db' = menu_items db /\
  db_now db' = db_now db /\
  match r with
  | Success o =>
      orders db' =
        (fun x => if decide (OrdersRow.id x = id) then apply_patch p x else x)
          <$> orders db /\
      exists x, x ∈ orders db /\ OrdersRow.id x = id /\
                o = order_of_row db [] (apply_patch p x)
  | Failure _ => db' = db
  end.
Proof.
  unfold update_orders_single.
  destruct (filter _ (orders db)) as [|x [|??]] eqn:Hf; intros [= <- <-];
    try done.
  split_and!; try done. exists x.
  assert (x ∈ filter (fun r => OrdersRow.id r = id) (orders db)) as Hx
    by (rewrite Hf; apply list_elem_of_here).
  apply list_elem_of_filter in Hx as [? ?]. done.
Qed.

(** A run of the list query leaves the tables as they were. *)
Lemma list_orders_read_only_aux w :
  exists r w', useOrders.queryFn w = (r, w') /\ remote w' = remote w.
Proof.
  destruct (next_fault w) as [e|] eqn:Hw.
  - eexists _, _. split.
    + apply queryFn_failed. by apply supabase_fault.
    + done.
  - eexists _, _. split; [by apply queryFn_served|]. done.
Qed.

(** What an update-status run does to the world, whatever its outcome. *)
Lemma update_run_world v w :
  exists r db',
    useUpdateOrderStatus.mutationFn v w =
      (r, set_remote db' (sent (update_request v w) w)) /\
    match r with
    | Fulfilled o =>
        next_fault w = None /\
        update_orders_single
          (Patch.mk (useUpdateOrderStatus.status v) (clock w))
          (useUpdateOrderStatus.id v) (remote w) = (Success o, db')
    | Rejected e => db' = remote w
    end.
Proof.
  destruct (next_fault w) as [e|] eqn:Hw.
  - rewrite (update_run_fault _ _ e) by done.
    exists (Rejected e), (remote w). split; [by destruct w|done].
  - rewrite update_run_served by done.
    destruct (update_orders_single _ _ _) as [[o|e] db'] eqn:Hupd.
    + by exists (Fulfilled o), db'.
    + exists (Rejected e), db'. split; [done|].
      by apply update_orders_single_fmap in Hupd as (_ & _ & _ & ->).
Qed.
End runs.

(** ** Frames *)

(** X1: whatever the outcome, a run of the list query sends exactly one
    request, the select, and changes no table, no cache entry and no
    toast. *)
Theorem list_orders_read_only (w : World) :
  exists r w',
    useOrders.queryFn w = (r, w') /\
    wire w' = wire w ++ [SelectOrders orders_select false] /\
    remote w' = remote w /\
    queries w' = queries w /\ toasts w' = toasts w.
Proof.
  destruct (next_fault w) as [e|] eqn:Hw.
  - eexists _, _. split.
    + apply queryFn_failed. by apply supabase_fault.
    + done.
  - eexists _, _. split; [by apply queryFn_served|]. by destruct w.
Qed.

(** X2: whatever the outcome, a run of the update-status mutation sends
    exactly one request, the update with the given status and the time of
    the client's clock; the table [orders] keeps its rows in number and
    place, each with its id, its creation time and every column but
    [status] and [updated_at], rows with another id are untouched, and
    the tables [order_items] and [menu_items] are as they were. *)
Theorem update_status_frame (v : useUpdateOrderStatus.Variables) (w : World) :
  exists r w',
    useUpdateOrderStatus.mutationFn v w = (r, w') /\
    wire w' =
      wire w ++
        [UpdateOrders
           (Patch.mk (useUpdateOrderStatus.status v) (clock w))
           (useUpdateOrderStatus.id v)] /\
    Forall2
      (fun a b =>
         same_but_status a b /\
         (OrdersRow.id b ≠ useUpdateOrderStatus.id v -> a = b))
      (orders (remote w')) (orders (remote w)) /\
    order_items (remote w') = order_items (remote w) /\
    menu_items (remote w') = menu_items (remote w).
Proof.
  destruct (update_run_world v w) as (r & db' & Hrun & Hr).
  exists r. eexists. split; [exact Hrun|]. cbn. split; [done|].
  destruct r as [o|e].
  - destruct Hr as [_ Hupd].
    apply update_orders_single_fmap in Hupd as (-> & -> & _ & -> & _).
    split_and!; try done.
    apply Forall2_fmap_l, Forall_Forall2_diag, Forall_forall.
    intros x _. cbn. case_decide; [|done]. split; [by repeat split|done].
  - subst db'. split_and!; try done.
    apply Forall_Forall2_diag, Forall_forall. intros x _.
    split; [by repeat split|done].
Qed.

(** ** The cache *)

(** X4: no optimistic update.  Whatever its outcome, a run of either
    mutation shows exactly one toast and writes no data and no error
    into the cache: every entry keeps what it held, and no entry is added
    or removed. *)
Theorem mutation_writes_no_cache_data (m : Mutation) (w : World) :
  exists r w2 t,
    run_mutation m w = (r, w2) /\
    toasts w2 = toasts w ++ [t] /\
    forall k,
      QueryClient.data <$> queries w2 !! k =
        QueryClient.data <$> queries w !! k /\
      QueryClient.error <$> queries w2 !! k =
        QueryClient.error <$> queries w !! k.
Proof.
  destruct (mutationFn_of m w) as [[d|e] w1] eqn:Hrun;
    pose proof (mutationFn_frame _ _ _ _ Hrun) as (Hq & Ht & _).
  - eexists _, _, _. split; [by apply run_mutation_Fulfilled|]. cbn.
    rewrite Hq, Ht. split; [done|]. intros k.
    rewrite invalidateQueries_lookup.
    destruct (queries w !! k) as [q|]; [|done]. cbn. by case_decide.
  - eexists _, _, _. split; [by apply run_mutation_Rejected|]. cbn.
    by rewrite Hq, Ht.
Qed.

(** X5: the mutations invalidate the key the list query is cached
    under.  After a run of the list query by the cache that succeeded,
    the entry under the key of the query holds the list, fresh; a
    mutation that then succeeds marks this very entry invalidated and
    keeps the list in it, and a mutation that fails leaves it as it
    is. *)
Theorem list_query_key_is_invalidated
    (m : Mutation) (w w' : World) (data : list OrderObject.t) :
  useOrders.queryFn w = (Fulfilled data, w') ->
  queries (fetchQuery useOrders.options w) !! queryKey useOrders.options
    = Some (QueryClient.mkQuery (Some data) None false) /\
  exists r w2,
    run_mutation m (fetchQuery useOrders.options w) = (r, w2) /\
    queries w2 !! queryKey useOrders.options =
      Some (QueryClient.mkQuery (Some data) None
              match r with
              | Fulfilled _ => true
              | Rejected _ => false
              end).
Proof.
  intros Hfetch. set (w0 := fetchQuery useOrders.options w).
  assert (queries w0 !! queryKey useOrders.options
          = Some (QueryClient.mkQuery (Some data) None false)) as Hq.
  { unfold w0, fetchQuery. cbn. rewrite Hfetch. cbn.
    by rewrite lookup_insert_eq. }
  split; [done|].
  destruct (mutationFn_of m w0) as [[d|e] w1] eqn:Hrun;
    pose proof (mutationFn_frame _ _ _ _ Hrun) as (Hq1 & _ & _).
  - eexists _, _. split; [by apply run_mutation_Fulfilled|]. cbn.
    rewrite invalidateQueries_lookup, Hq1. cbn in Hq. rewrite Hq. cbn.
    by rewrite decide_True.
  - eexists _, _. split; [by apply run_mutation_Rejected|]. cbn.
    rewrite Hq1. by cbn in Hq.
Qed.

Lemma list_query_key_is_invalidated_witness :
  exists data w' r w2,
    useOrders.queryFn (Sample.world []) = (Fulfilled data, w') /\
    run_mutation
      (UpdateOrderStatus (useUpdateOrderStatus.mkVariables "o1" ready))
      (fetchQuery useOrders.options (Sample.world [])) = (r, w2) /\
    queries w2 !! queryKey useOrders.options =
      Some (QueryClient.mkQuery (Some data) None
              match r with
              | Fulfilled _ => true
              | Rejected _ => false
              end).
Proof.
  eexists _, _.
  destruct (list_query_key_is_invalidated
              (UpdateOrderStatus (useUpdateOrderStatus.mkVariables "o1" ready))
              (Sample.world []) _ _ ltac:(vm_compute; reflexivity))
    as (_ & r & w2 & Hrun & Hq).
  exists r, w2. split; [vm_compute; reflexivity|]. by split.
Defined.

(** ** The runs of the create-order mutation *)

Section create_runs.
Implicit Types (w : World) (v : useCreateOrder.Variables) (db : Store).

(** The three ways a create-order run can go: the order insert fails;
    the order insert succeeds and the item insert fails; both succeed. *)
Lemma create_run_world v w :
  exists r w',
    useCreateOrder.mutationFn v w = (r, w') /\
    let row := new_order_row (useCreateOrder.orderData v) (remote w) in
    let order := order_of_row (remote w) [] row in
    let db1 := set_orders (orders (remote w) ++ [row]) (remote w) in
    let values := useCreateOrder.orderItems order (useCreateOrder.items v) in
    match r with
    | Rejected e =>
        (next_fault w = Some e /\ remote w' = remote w) \/
        (next_fault w = None /\ remote w' = db1)
    | Fulfilled o =>
        o = order /\ next_fault w = None /\
        remote w' = set_order_items (append_items (order_items db1) values) db1 /\
        Forall (references_ok db1) values
    end.
Proof.
  rewrite create_mutationFn_unfold. destruct (next_fault w) as [e|] eqn:Hw.
  - rewrite (supabase_fault _ _ e) by done. eexists _, _. split; [done|].
    cbn. by left.
  - rewrite supabase_served by done. cbn.
    match goal with |- context [supabase ?rq ?w1] =>
      destruct (supabase_frame rq w1) as (r2 & w2 & H2 & _);
      rewrite H2; pose proof H2 as H2'; unfold supabase in H2' end.
    destruct (next_fault _) as [e|] in H2'.
    + simplify_eq. eexists _, _. split; [done|]. cbn. by right.
    + cbn in H2'. unfold insert_order_items in H2'. case_decide as Hrefs.
      * simplify_eq. eexists _, _. split; [done|]. cbn. done.
      * simplify_eq. eexists _, _. split; [done|]. cbn. by right.
Qed.

Lemma new_order_row_fresh d db :
  OrdersRow.id (new_order_row d db) ∉ (OrdersRow.id <$> orders db).
Proof. cbn. apply infinite_is_fresh. Qed.
End create_runs.

(** ** Mutations followed by the list query *)

Section compose.
Implicit Types (w : World) (db : Store).

(** The objects of a served list query are the rows of the table, at the
    type of the interface. *)
Lemma queryFn_served_listed w :
  next_fault w = None ->
  exists listed,
    (useOrders.queryFn w).1 = Fulfilled (Order_object <$> listed) /\
    listed ≡ₚ order_of_row (remote w) orders_select <$> orders (remote w).
Proof.
  intros Hw. rewrite queryFn_served by done. eexists. split; [done|].
  by rewrite merge_sort_Permutation.
Qed.

(** What a successful create-order run leaves in the store. *)
Lemma create_run_Fulfilled (v : useCreateOrder.Variables) w order w1 :
  run_mutation (CreateOrder v) w = (Fulfilled order, w1) ->
  exists row news,
    (OrdersRow.id row ∉ (OrdersRow.id <$> orders (remote w))) /\
    order = order_of_row (remote w) [] row /\
    orders (remote w1) = orders (remote w) ++ [row] /\
    order_items (remote w1) = order_items (remote w) ++ news /\
    menu_items (remote w1) = menu_items (remote w) /\
    Forall2
      (fun item r =>
         item_row_of order item r /\
         OrderItemsRow.menu_item_id r ∈
           (MenuItemsRow.id <$> menu_items (remote w)))
      (useCreateOrder.items v) news.
Proof.
  intros Hrun. apply run_mutation_inv in Hrun as (w0 & Hrun & -> & _).
  cbn in Hrun. destruct (create_run_world v w) as (r & w' & Hrun' & Hr).
  rewrite Hrun in Hrun'. injection Hrun' as <- <-. cbn in Hr.
  destruct Hr as (-> & _ & -> & Hrefs).
  destruct (append_items_app (order_items (remote w))
              (useCreateOrder.orderItems
                 (order_of_row (remote w) []
                    (new_order_row (useCreateOrder.orderData v) (remote w)))
                 (useCreateOrder.items v)))
    as (news & Happ & Hnews).
  exists (new_order_row (useCreateOrder.orderData v) (remote w)), news.
  split_and!; try done.
  { apply new_order_row_fresh. }
  clear Happ. revert Hrefs Hnews. unfold useCreateOrder.orderItems.
  rewrite Forall_fmap, Forall2_fmap_l.
  generalize (useCreateOrder.items v) as items. intros items Hrefs Hnews.
  induction Hnews as [|item r items news Hr Hnews IH]; [constructor|].
  apply Forall_cons in Hrefs as [[_ Hmenu] Hrefs]. constructor; [|auto].
  destruct Hr as (Ho & Hm & Hq & Hp & Hso & Hsa). cbn in *.
  split; [|by rewrite Hm]. unfold item_row_of.
  by rewrite Ho, Hm, Hq, Hp, Hso, Hsa.
Qed.

Lemma filter_order_id_nil (id : string) (ids : list string)
    (rows : list OrderItemsRow.t) :
  Forall (fun r => OrderItemsRow.order_id r ∈ ids) rows ->
  id ∉ ids ->
  filter (fun r => OrderItemsRow.order_id r = id) rows = [].
Proof.
  intros Hrows Hid. induction Hrows as [|r rows Hr _ IH]; [done|].
  rewrite filter_cons, decide_False; [done|]. by intros <-.
Qed.

Lemma filter_order_id_all (id : string) (rows : list OrderItemsRow.t) :
  Forall (fun r => OrderItemsRow.order_id r = id) rows ->
  filter (fun r => OrderItemsRow.order_id r = id) rows = rows.
Proof.
  induction 1 as [|r rows Hr _ IH]; [done|].
  by rewrite filter_cons, decide_True, IH.
Qed.
End compose.

(** X8: after an update-status mutation that succeeded, a served list
    query shows the updated order: its objects are orders of the
    interface, one of them has the columns of the row the mutation
    returned, every listed order with the given id has the new status and
    the update time of the client's clock, and the list is as long as the
    table was before the update. *)
Theorem update_then_list
    (w w1 : World) (id : string) (st : OrderStatus) (o : Order.t) :
  run_mutation (UpdateOrderStatus (useUpdateOrderStatus.mkVariables id st)) w
    = (Fulfilled o, w1) ->
  next_fault w1 = None ->
  exists data listed,
    (useOrders.queryFn w1).1 = Fulfilled data /\
    data = Order_object <$> listed /\
    (exists o', o' ∈ listed /\ same_columns o' o) /\
    (forall o',
       o' ∈ listed -> Order.id o' = id ->
       Order.status o' = st /\ Order.updated_at o' = clock w) /\
    length data = length (orders (remote w)).
Proof.
  intros Hrun Hw1.
  apply run_mutation_inv in Hrun as (w0 & Hrun & Hremote & _). cbn in Hrun.
  destruct (update_run_world (useUpdateOrderStatus.mkVariables id st) w)
    as (r & db' & Hrun' & Hr).
  rewrite Hrun in Hrun'. injection Hrun' as <- ->. cbn in Hr, Hremote.
  destruct Hr as [_ Hupd].
  apply update_orders_single_fmap in Hupd
    as (_ & _ & _ & Horders & x & Hx & Hid & ->).
  destruct (queryFn_served_listed w1 Hw1) as (listed & Hdata & Hlisted).
  exists (Order_object <$> listed), listed. rewrite Hremote in Hlisted.
  rewrite Horders in Hlisted.
  split_and!; [done|done| | |].
  - eexists. split.
    + rewrite Hlisted. apply list_elem_of_fmap. eexists. split; [done|].
      apply list_elem_of_fmap. by exists x.
    + cbn. rewrite decide_True by done. by repeat split.
  - intros o'. rewrite Hlisted.
    intros (row & -> & (y & -> & Hy)%list_elem_of_fmap)%list_elem_of_fmap.
    cbn. case_decide; [done|]. by intros ?.
  - by rewrite length_fmap, Hlisted, !length_fmap.
Qed.

Lemma update_then_list_witness :
  exists o w1 data listed,
    run_mutation
      (UpdateOrderStatus (useUpdateOrderStatus.mkVariables "o3" cancelled))
      (Sample.world []) = (Fulfilled o, w1) /\
    (useOrders.queryFn w1).1 = Fulfilled data /\
    data = Order_object <$> listed /\
    (exists o', o' ∈ listed /\ same_columns o' o) /\
    (forall o',
       o' ∈ listed -> Order.id o' = "o3" ->
       Order.status o' = cancelled /\ Order.updated_at o' = 2000%Z) /\
    length data = 3.
Proof.
  eexists _, _.
  destruct (update_then_list (Sample.world []) _ "o3" cancelled _
              ltac:(vm_compute; reflexivity) ltac:(reflexivity))
    as (data & listed & Hdata).
  exists data, listed. split; [vm_compute; reflexivity|exact Hdata].
Defined.

(** X9: after a create-order mutation that succeeded on a store whose
    item rows all reference an order row, a served list query shows the
    new order exactly once: its objects are, in some order, the new order
    and as many others as the table had rows, none of them with the new
    id.  The new order has the columns of the returned row and exactly
    the items of the call (the select asks for no order among them): each
    with the order's id, the columns of its input, its option mappings
    (empty when omitted) and the display fields of its menu item. *)
Theorem create_then_list
    (w w1 : World) (v : useCreateOrder.Variables) (order : Order.t) :
  Forall (fun r =>
            OrderItemsRow.order_id r ∈ (OrdersRow.id <$> orders (remote w)))
         (order_items (remote w)) ->
  run_mutation (CreateOrder v) w = (Fulfilled order, w1) ->
  next_fault w1 = None ->
  exists data o olds its its',
    (useOrders.queryFn w1).1 = Fulfilled data /\
    data ≡ₚ Order_object <$> (o :: olds) /\
    same_columns o order /\
    Forall (fun o' => Order.id o' ≠ Order.id order) olds /\
    length olds = length (orders (remote w)) /\
    Order.order_items o = Some its /\
    its ≡ₚ its' /\
    Forall2 (shows_input order) (useCreateOrder.items v) its'.
Proof.
  intros Hfk Hrun Hw1.
  apply create_run_Fulfilled in Hrun
    as (row & news & Hfresh & -> & Horders & Hitems & Hmenu & Hnews).
  destruct (queryFn_served_listed w1 Hw1) as (listed & Hdata & Hlisted).
  rewrite Horders in Hlisted.
  exists (Order_object <$> listed),
         (order_of_row (remote w1) orders_select row),
         (order_of_row (remote w1) orders_select <$> orders (remote w)).
  eexists _, _. split; [done|]. split_and!.
  - rewrite Hlisted, fmap_app. cbn -[orders_select].
    by rewrite <-Permutation_cons_append.
  - by repeat split.
  - apply Forall_fmap, Forall_forall. intros r Hr Hid. cbn in Hid.
    apply Hfresh. rewrite <-Hid. apply list_elem_of_fmap. eauto.
  - by rewrite length_fmap.
  - reflexivity.
  - reflexivity.
  - cbn. unfold items_of. rewrite Hitems, filter_app.
    rewrite (filter_order_id_nil _ _ _ Hfk Hfresh). cbn.
    rewrite filter_order_id_all.
    2:{ eapply Forall2_Forall_r; [exact Hnews|]. apply Forall_forall.
        intros item _ r [(Ho & _) _]. exact Ho. }
    apply Forall2_fmap_r. eapply Forall2_impl; [exact Hnews|].
    intros item r [(Ho & Hm & Hq & Hp & Hso & Hsa) Hmenu_r].
    unfold shows_input. cbn. split_and!; try done.
    apply menu_item_of_is_Some. by rewrite Hmenu.
Qed.

Lemma create_then_list_witness :
  exists order w1 data o olds its its',
    run_mutation
      (CreateOrder
         (useCreateOrder.mkVariables Sample.data
            [Sample.item_a; Sample.item_b]))
      (Sample.world []) = (Fulfilled order, w1) /\
    (useOrders.queryFn w1).1 = Fulfilled data /\
    data ≡ₚ Order_object <$> (o :: olds) /\
    same_columns o order /\
    Forall (fun o' => Order.id o' ≠ Order.id order) olds /\
    length olds = 3 /\
    Order.order_items o = Some its /\
    its ≡ₚ its' /\
    Forall2 (shows_input order) [Sample.item_a; Sample.item_b] its'.
Proof.
  eexists _, _.
  destruct (create_then_list (Sample.world []) _
              (useCreateOrder.mkVariables Sample.data
                 [Sample.item_a; Sample.item_b]) _
              ltac:(apply (bool_decide_unpack _); vm_compute; exact I)
              ltac:(vm_compute; reflexivity) ltac:(reflexivity))
    as (data & o & olds & its & its' & Hdata).
  exists data, o, olds, its, its'.
  split; [vm_compute; reflexivity|exact Hdata].
Defined.

(** ** One mutation after another *)

Lemma update_orders_single_Success_filter (p : Patch.t) (id : string)
    (db : Store) (o : Order.t) (db' : Store) :
  update_orders_single p id db = (Success o, db') ->
  exists x,
    filter (fun r => OrdersRow.id r = id) (orders db) = [x] /\
    o = order_of_row db [] (apply_patch p x) /\
    db' =
      set_orders
        ((fun r => if decide (OrdersRow.id r = id) then apply_patch p r else r)
           <$> orders db) db.
Proof.
  unfold update_orders_single.
  destruct (filter _ (orders db)) as [|x [|??]] eqn:Hf; intros [= <- <-].
  by exists x.
Qed.

Lemma filter_id_patched (p : Patch.t) (id : string) (rows : list OrdersRow.t) :
  filter (fun r => OrdersRow.id r = id)
    ((fun r => if decide (OrdersRow.id r = id) then apply_patch p r else r)
       <$> rows)
  = apply_patch p <$> filter (fun r => OrdersRow.id r = id) rows.
Proof.
  induction rows as [|r rows IH]; [done|].
  rewrite fmap_cons, !filter_cons.
  destruct (decide (OrdersRow.id r = id)) as [Hr|Hr].
  - rewrite decide_True by done. cbn. by rewrite IH.
  - by rewrite decide_False.
Qed.

(** An update-status run on a served world where exactly one row has the
    id: what it returns and what it leaves. *)
Lemma update_run_Fulfilled (w : World) (id : string) (st : OrderStatus)
    (x : OrdersRow.t) :
  next_fault w = None ->
  filter (fun r => OrdersRow.id r = id) (orders (remote w)) = [x] ->
  exists w2,
    run_mutation (UpdateOrderStatus (useUpdateOrderStatus.mkVariables id st)) w
      = (Fulfilled
           (order_of_row (remote w) []
              (apply_patch (Patch.mk st (clock w)) x)), w2) /\
    orders (remote w2) =
      (fun r => if decide (OrdersRow.id r = id)
                then apply_patch (Patch.mk st (clock w)) r else r)
        <$> orders (remote w).
Proof.
  intros Hw Hx. eexists. split.
  - apply (run_mutation_Fulfilled (UpdateOrderStatus _)). cbn.
    rewrite update_run_served by done. cbn. unfold update_orders_single.
    rewrite Hx. reflexivity.
  - done.
Qed.

(** X10: the id a create-order mutation returns names the new row and
    only it.  At any later moment at which the tables are as the create
    left them and the store serves the request, an update-status mutation
    with that id succeeds, and the row it returns is the created order
    with the new status and, as update time, the client's clock at the
    moment of this second call. *)
Theorem create_then_update
    (w w1 w' : World) (v : useCreateOrder.Variables) (order : Order.t)
    (st : OrderStatus) :
  run_mutation (CreateOrder v) w = (Fulfilled order, w1) ->
  remote w' = remote w1 ->
  next_fault w' = None ->
  exists o' w2,
    run_mutation
      (UpdateOrderStatus (useUpdateOrderStatus.mkVariables (Order.id order) st))
      w' = (Fulfilled o', w2) /\
    Order.id o' = Order.id order /\
    Order.status o' = st /\
    Order.updated_at o' = clock w' /\
    Order.order_number o' = Order.order_number order /\
    Order.customer_name o' = Order.customer_name order /\
    Order.customer_email o' = Order.customer_email order /\
    Order.customer_phone o' = Order.customer_phone order /\
    Order.order_type o' = Order.order_type order /\
    Order.total_amount o' = Order.total_amount order /\
    Order.notes o' = Order.notes order /\
    Order.created_at o' = Order.created_at order.
Proof.
  intros Hrun Hremote Hw'.
  apply create_run_Fulfilled in Hrun
    as (row & news & Hfresh & -> & Horders & _).
  destruct (update_run_Fulfilled w' (OrdersRow.id row) st row Hw')
    as (w2 & Hupd & _).
  { rewrite Hremote, Horders, filter_app, filter_id_nil by done.
    by rewrite app_nil_l, filter_cons, decide_True. }
  eexists _, _. split; [exact Hupd|]. done.
Qed.

Lemma create_then_update_witness :
  exists order w1 o' w2,
    run_mutation
      (CreateOrder (useCreateOrder.mkVariables Sample.data [Sample.item_b]))
      (Sample.world []) = (Fulfilled order, w1) /\
    run_mutation
      (UpdateOrderStatus
         (useUpdateOrderStatus.mkVariables (Order.id order) ready))
      (later 3000%Z w1) = (Fulfilled o', w2) /\
    Order.id o' = Order.id order /\
    Order.status o' = ready /\
    Order.updated_at o' = 3000%Z.
Proof.
  eexists _, _.
  destruct (create_then_update (Sample.world []) _ (later 3000%Z _)
              (useCreateOrder.mkVariables Sample.data [Sample.item_b]) _ ready
              ltac:(vm_compute; reflexivity) ltac:(reflexivity)
              ltac:(reflexivity))
    as (o' & w2 & Hupd & Hid & Hst & Hat & _).
  exists o', w2. split; [vm_compute; reflexivity|]. by split_and!.
Defined.

(** X11: the last update wins, and no status bars another.  After an
    update-status mutation that succeeded, at any later moment at which
    the tables are as it left them and the store serves the request, a
    second one for the same id with any status succeeds, returns the row
    with the second status and the client's clock at the moment of the
    second call as update time, and leaves [orders] as a single update
    with the second status at that moment would have left it. *)
Theorem update_then_update
    (w w1 w' : World) (id : string) (st1 st2 : OrderStatus) (o1 : Order.t) :
  run_mutation (UpdateOrderStatus (useUpdateOrderStatus.mkVariables id st1)) w
    = (Fulfilled o1, w1) ->
  remote w' = remote w1 ->
  next_fault w' = None ->
  exists o2 w2,
    run_mutation
      (UpdateOrderStatus (useUpdateOrderStatus.mkVariables id st2)) w'
      = (Fulfilled o2, w2) /\
    Order.id o2 = id /\ Order.status o2 = st2 /\
    Order.updated_at o2 = clock w' /\
    Order.created_at o2 = Order.created_at o1 /\
    Order.order_number o2 = Order.order_number o1 /\
    orders (remote w2) =
      (fun r => if decide (OrdersRow.id r = id)
                then apply_patch (Patch.mk st2 (clock w')) r else r)
        <$> orders (remote w).
Proof.
  intros Hrun Hremote Hw'.
  apply run_mutation_inv in Hrun as (w0 & Hrun & Hremote1 & _).
  cbn in Hrun.
  destruct (update_run_world (useUpdateOrderStatus.mkVariables id st1) w)
    as (r & db' & Hrun' & Hr).
  rewrite Hrun in Hrun'. injection Hrun' as <- ->. cbn in Hr, Hremote1.
  destruct Hr as [_ Hupd].
  apply update_orders_single_Success_filter in Hupd as (x & Hx & -> & ->).
  assert (OrdersRow.id x = id) as Hid.
  { assert (x ∈ filter (fun r => OrdersRow.id r = id) (orders (remote w)))
      as Hin by (rewrite Hx; apply list_elem_of_here).
    by apply list_elem_of_filter in Hin as [? _]. }
  rewrite Hremote1 in Hremote.
  destruct (update_run_Fulfilled w' id st2
              (apply_patch (Patch.mk st1 (clock w)) x) Hw')
    as (w2 & Hupd & Horders).
  { rewrite Hremote. cbn. by rewrite filter_id_patched, Hx. }
  eexists _, _. split; [exact Hupd|]. cbn. split_and!; try done.
  rewrite Horders, Hremote. cbn.
  rewrite <-list_fmap_compose. apply list_fmap_ext. intros i y _. cbn.
  destruct (decide (OrdersRow.id y = id)) as [Hy|Hy]; cbn.
  - by rewrite decide_True.
  - by rewrite decide_False.
Qed.

Lemma update_then_update_witness :
  exists o1 w1 o2 w2,
    run_mutation
      (UpdateOrderStatus (useUpdateOrderStatus.mkVariables "o3" ready))
      (Sample.world []) = (Fulfilled o1, w1) /\
    run_mutation
      (UpdateOrderStatus (useUpdateOrderStatus.mkVariables "o3" new))
      (later 3000%Z w1) = (Fulfilled o2, w2) /\
    Order.id o2 = "o3" /\ Order.status o2 = new /\
    Order.updated_at o2 = 3000%Z.
Proof.
  eexists _, _.
  destruct (update_then_update (Sample.world []) _ (later 3000%Z _)
              "o3" ready new _
              ltac:(vm_compute; reflexivity) ltac:(reflexivity)
              ltac:(reflexivity))
    as (o2 & w2 & Hupd & Hid & Hst & Hat & _).
  exists o2, w2. split; [vm_compute; reflexivity|]. by split_and!.
Defined.
